(** * Slide Audio Recorder: a shallow embedding of the recording engine
      and of the storage manager, with the properties of its specification.

    Python integers are [Z], byte strings are lists of [Byte.byte], text is
    [string].  The module-level settings of [config.py], the file system and
    the history of calls made to the audio device form one explicit [World]
    that every operation threads; Python exceptions are a [Raise] result. *)

From Stdlib Require Import ZArith NArith QArith Ascii String List Lia.
From stdpp Require Import base option list strings gmap sorting.

Local Open Scope Z_scope.
Local Open Scope string_scope.
Local Open Scope list_scope.

Abbreviation bytes := (list Byte.byte).

(** ** Python text primitives used by the naming scheme *)

Module Py.

(** [str.isspace] on the ASCII range: TAB..CR, FS..US and the blank. *)
Definition is_space (c : ascii) : bool :=
  let n := N_of_ascii c in
  (((9 <=? n) && (n <=? 13)) || ((28 <=? n) && (n <=? 32)))%N.

Definition digit_val (c : ascii) : option N :=
  let n := N_of_ascii c in
  if ((48 <=? n) && (n <=? 57))%N then Some (n - 48)%N else None.

Definition digit_char (d : N) : ascii := ascii_of_N (48 + d).

Fixpoint lstrip (s : string) : string :=
  match s with
  | String c s' => if is_space c then lstrip s' else s
  | EmptyString => EmptyString
  end.

Fixpoint rstrip (s : string) : string :=
  match s with
  | EmptyString => EmptyString
  | String c s' =>
      match rstrip s' with
      | EmptyString => if is_space c then EmptyString else String c EmptyString
      | r => String c r
      end
  end.

Definition strip (s : string) : string := rstrip (lstrip s).

Fixpoint int_digits (s : string) (acc : N) : option N :=
  match s with
  | EmptyString => Some acc
  | String c s' =>
      match digit_val c with
      | Some d => int_digits s' (10 * acc + d)%N
      | None => None
      end
  end.

Definition int_unsigned (s : string) : option N :=
  match s with
  | EmptyString => None
  | _ => int_digits s 0%N
  end.

(** [int(s)] in base ten: surrounding white space, one optional sign, at
    least one digit.  [None] stands for [ValueError].  The digit-grouping
    underscore of integer literals is left out: every argument here is a
    field of [split('_')] and holds no underscore. *)
Definition int (s : string) : option Z :=
  match strip s with
  | String "-" r => (fun n => - Z.of_N n) <$> int_unsigned r
  | String "+" r => Z.of_N <$> int_unsigned r
  | r => Z.of_N <$> int_unsigned r
  end.

(** Decimal digits of a natural number, most significant first. *)
Fixpoint str_go (fuel : nat) (n : N) (acc : string) : string :=
  match fuel with
  | O => acc
  | S fuel' =>
      let acc' := String (digit_char (n mod 10)) acc in
      if (n <? 10)%N then acc' else str_go fuel' (n / 10) acc'
  end.

Definition str_N (n : N) : string :=
  str_go (S (N.to_nat (N.log2 n))) n EmptyString.

Fixpoint zeros (k : nat) : string :=
  match k with
  | O => EmptyString
  | S k' => String "0" (zeros k')
  end.

Definition zfill (width : nat) (s : string) : string :=
  zeros (width - String.length s) +:+ s.

(** The format field [{:03d}]: sign-aware zero padding to width three. *)
Definition format_03d (n : Z) : string :=
  if (n <? 0)%Z then String "-" (zfill 2 (str_N (Z.to_N (- n))))
  else zfill 3 (str_N (Z.to_N n)).

(** [s.split(sep)] for a one-character separator. *)
Fixpoint split (sep : ascii) (s : string) : list string :=
  match s with
  | EmptyString => [EmptyString]
  | String c s' =>
      if Ascii.eqb c sep then EmptyString :: split sep s'
      else match split sep s' with
           | w :: ws => String c w :: ws
           | [] => [String c EmptyString]
           end
  end.

Fixpoint strip_prefix (p s : string) : option string :=
  match p, s with
  | EmptyString, _ => Some s
  | String a p', String b s' =>
      if Ascii.eqb a b then strip_prefix p' s' else None
  | String _ _, EmptyString => None
  end.

Fixpoint ends_with (suffix s : string) : bool :=
  if String.eqb s suffix then true
  else match s with
       | EmptyString => false
       | String _ s' => ends_with suffix s'
       end.

(** [name.rpartition('.')] when a dot occurs: the text before the last dot
    and the text after it. *)
Fixpoint rpartition_dot (s : string) : option (string * string) :=
  match s with
  | EmptyString => None
  | String c s' =>
      match rpartition_dot s' with
      | Some (a, b) => Some (String c a, b)
      | None => if Ascii.eqb c "." then Some (EmptyString, s') else None
      end
  end.

(** [PurePath.stem]: the name without its last suffix; a leading dot or a
    trailing dot does not start a suffix. *)
Definition stem (name : string) : string :=
  match rpartition_dot name with
  | Some (String c a, String d b) => String c a
  | _ => name
  end.

Fixpoint max_list (x : Z) (l : list Z) : Z :=
  match l with
  | [] => x
  | y :: l' => max_list (Z.max x y) l'
  end.

(** [max(l)] on a list of integers; [None] on the empty list. *)
Definition max (l : list Z) : option Z :=
  match l with
  | [] => None
  | x :: l' => Some (max_list x l')
  end.

(** [sorted(l)] on integers. *)
Definition sorted (l : list Z) : list Z := merge_sort Z.le l.

(** Character classes used to state facts about rendered numbers. *)
Fixpoint all_chars (P : ascii -> bool) (s : string) : bool :=
  match s with
  | EmptyString => true
  | String c s' => P c && all_chars P s'
  end.

Definition is_digit (c : ascii) : bool :=
  bool_decide (is_Some (digit_val c)).

Definition is_numeral (c : ascii) : bool := is_digit c || Ascii.eqb c "-".

End Py.

(** ** Exceptions and the state-and-exception monad *)

Inductive exn : Set :=
| FileNotFoundError   (* a missing file or a missing directory *)
| SameFileError       (* shutil: source and destination coincide *)
| ValueError          (* int() on text that is not a number *)
| IndexError          (* list index out of range *)
| AttributeError      (* a method called on None *)
| OSError             (* PortAudio or keyboard back end failure *)
| WaveError           (* wave.Error *)
| StructError         (* struct.error: a header field out of range *)
| CodecError.         (* pydub could not decode or encode *)

Inductive result (A : Type) : Type :=
| Ret (a : A)
| Raise (e : exn).
Arguments Ret {A} a.
Arguments Raise {A} e.

Definition M (S A : Type) : Type := S -> result A * S.

Global Instance M_ret {S} : MRet (M S) := fun A a s => (Ret a, s).

Global Instance M_bind {S} : MBind (M S) := fun A B f m s =>
  match m s with
  | (Ret a, s') => f a s'
  | (Raise e, s') => (Raise e, s')
  end.

Section control.
Context {S A : Type}.

Definition raise (e : exn) : M S A := fun s => (Raise e, s).

(** [try: body / except Exception as e: handler e]. *)
Definition try_except (body : M S A) (handler : exn -> M S A) : M S A :=
  fun s =>
    match body s with
    | (Ret a, s') => (Ret a, s')
    | (Raise e, s') => handler e s'
    end.

(** [try: body / finally: final]: [final] runs on every exit of [body];
    an exception of [final] replaces the outcome of [body]. *)
Definition try_finally (body : M S A) (final : M S unit) : M S A :=
  fun s =>
    let '(r, s') := body s in
    match final s' with
    | (Ret _, s'') => (r, s'')
    | (Raise e, s'') => (Raise e, s'')
    end.

Definition gets (f : S -> A) : M S A := fun s => (Ret (f s), s).
End control.

Definition modify {S} (f : S -> S) : M S unit := fun s => (Ret tt, f s).

(** [from_option e o]: the value of [o], or exception [e]. *)
Definition from_option {S A} (e : exn) (o : option A) : M S A :=
  match o with
  | Some a => mret a
  | None => raise e
  end.

(** [for x in l: f x], collecting the results. *)
Fixpoint for_each {S A B} (f : A -> M S B) (l : list A) : M S (list B) :=
  match l with
  | [] => mret []
  | x :: l' => y ← f x; ys ← for_each f l'; mret (y :: ys)
  end.

(** ** The PortAudio binding as the engine sees it *)

Module pa.
Definition paInt16 : Z := 8.

(** Keyword arguments of [PyAudio.open]; an argument the caller leaves out
    has the default of the binding. *)
Record open_args : Type := {
  format : Z;
  channels : Z;
  rate : Z;
  input : bool;
  output : bool;
  input_device_index : option Z;
  frames_per_buffer : Z;
  stream_callback : option unit
}.

(** [PyAudio.get_sample_size]. *)
Definition get_sample_size (fmt : Z) : option Z :=
  if decide (fmt = 1) then Some 4          (* paFloat32 *)
  else if decide (fmt = 2) then Some 4     (* paInt32 *)
  else if decide (fmt = 4) then Some 3     (* paInt24 *)
  else if decide (fmt = 8) then Some 2     (* paInt16 *)
  else if decide (fmt = 16) then Some 1    (* paInt8 *)
  else if decide (fmt = 32) then Some 1    (* paUInt8 *)
  else None.

Record PyAudio : Type := { pa_id : nat }.
Record Stream : Type := { opened_with : open_args }.
End pa.

(** Calls that leave the program, in the order they are made. *)
Inductive Call : Type :=
| PyAudio_new
| PyAudio_terminate
| PyAudio_open (a : pa.open_args)
| PyAudio_get_device_info_by_index (i : Z)
| Stream_is_active
| Stream_stop_stream
| Stream_close
| Stream_read (n : Z)
| time_time
| atexit_register
| keyboard_on_press_key (key : string)
| signal_signal.

(** The answers of the outside world; each may depend on everything the
    program has done so far.  [false] and [None] stand for an exception. *)
Record Driver : Type := {
  PyAudio_ok : list Call -> bool;
  terminate_ok : list Call -> bool;
  open_ok : list Call -> pa.open_args -> bool;
  is_active_reply : list Call -> option bool;
  stop_stream_ok : list Call -> bool;
  close_ok : list Call -> bool;
  read_reply : list Call -> Z -> option bytes;
  max_input_channels : list Call -> Z -> option Z;
  clock : list Call -> Q;
  hook_ok : list Call -> bool
}.

(** The compression library: decoding a WAV buffer and exporting it. *)
Record Codec : Type := {
  segment : Type;
  from_wav : bytes -> option segment;
  export : segment -> string -> string -> list string -> option bytes
}.

(** ** Settings, file system, world *)

Abbreviation Path := (string * string)%type.

Record Config : Type := {
  SAMPLE_RATE : Z;
  CHANNELS : Z;
  CHUNK_SIZE : Z;
  FORMAT : string;
  BITRATE : string;
  DEFAULT_OUTPUT_DIR : string;
  DEFAULT_INPUT_DEVICE : option Z;
  MAX_RECORDING_TIME : Z;
  MIN_RECORDING_TIME : Z
}.

(** A directory is a finite map from names to contents; the file system maps
    the directories that exist to their state.  A [Path] is a directory and
    a name in it. *)
Record World : Type := {
  cfg : Config;
  fs : gmap string (gmap string bytes);
  log : list Call
}.

Definition set_cfg (c : Config) (w : World) : World :=
  {| cfg := c; fs := fs w; log := log w |}.
Definition set_fs (f : gmap string (gmap string bytes)) (w : World) : World :=
  {| cfg := cfg w; fs := f; log := log w |}.
Definition set_log (l : list Call) (w : World) : World :=
  {| cfg := cfg w; fs := fs w; log := l |}.

Definition set_BITRATE (b : string) (c : Config) : Config :=
  {| SAMPLE_RATE := SAMPLE_RATE c; CHANNELS := CHANNELS c;
     CHUNK_SIZE := CHUNK_SIZE c; FORMAT := FORMAT c; BITRATE := b;
     DEFAULT_OUTPUT_DIR := DEFAULT_OUTPUT_DIR c;
     DEFAULT_INPUT_DEVICE := DEFAULT_INPUT_DEVICE c;
     MAX_RECORDING_TIME := MAX_RECORDING_TIME c;
     MIN_RECORDING_TIME := MIN_RECORDING_TIME c |}.
Definition set_DEFAULT_OUTPUT_DIR (d : string) (c : Config) : Config :=
  {| SAMPLE_RATE := SAMPLE_RATE c; CHANNELS := CHANNELS c;
     CHUNK_SIZE := CHUNK_SIZE c; FORMAT := FORMAT c; BITRATE := BITRATE c;
     DEFAULT_OUTPUT_DIR := d;
     DEFAULT_INPUT_DEVICE := DEFAULT_INPUT_DEVICE c;
     MAX_RECORDING_TIME := MAX_RECORDING_TIME c;
     MIN_RECORDING_TIME := MIN_RECORDING_TIME c |}.
Definition set_DEFAULT_INPUT_DEVICE (i : option Z) (c : Config) : Config :=
  {| SAMPLE_RATE := SAMPLE_RATE c; CHANNELS := CHANNELS c;
     CHUNK_SIZE := CHUNK_SIZE c; FORMAT := FORMAT c; BITRATE := BITRATE c;
     DEFAULT_OUTPUT_DIR := DEFAULT_OUTPUT_DIR c;
     DEFAULT_INPUT_DEVICE := i;
     MAX_RECORDING_TIME := MAX_RECORDING_TIME c;
     MIN_RECORDING_TIME := MIN_RECORDING_TIME c |}.

(** An external call that returns nothing: it is logged, then succeeds or
    raises as the driver says. *)
Definition extern (c : Call) (ok : list Call -> bool) (e : exn)
  : M World unit :=
  fun w =>
    let w' := set_log (log w ++ [c]) w in
    if ok (log w) then (Ret tt, w') else (Raise e, w').

(** An external call that returns a value. *)
Definition extern_val {A} (c : Call) (reply : list Call -> option A) (e : exn)
  : M World A :=
  fun w =>
    let w' := set_log (log w ++ [c]) w in
    match reply (log w) with
    | Some a => (Ret a, w')
    | None => (Raise e, w')
    end.

(** File system primitives, in the [M World] monad. *)
Module os.
Definition dir_state (w : World) (d : string) : gmap string bytes :=
  default ∅ (fs w !! d).

Definition read_file (w : World) (p : Path) : option bytes :=
  fs w !! p.1 ≫= fun m => m !! p.2.

(** [os.makedirs(d, exist_ok=True)]. *)
Definition makedirs (d : string) : M World unit :=
  modify (fun w =>
    match fs w !! d with
    | Some _ => w
    | None => set_fs (<[d := ∅]> (fs w)) w
    end).

(** [with open(p, 'wb') as f: f.write(data)]. *)
Definition write_file (p : Path) (data : bytes) : M World unit :=
  fun w =>
    match fs w !! p.1 with
    | Some m => (Ret tt, set_fs (<[p.1 := <[p.2 := data]> m]> (fs w)) w)
    | None => (Raise FileNotFoundError, w)
    end.

(** [os.remove(p)]. *)
Definition remove (p : Path) : M World unit :=
  fun w =>
    match fs w !! p.1 with
    | Some m =>
        match m !! p.2 with
        | Some _ => (Ret tt, set_fs (<[p.1 := delete p.2 m]> (fs w)) w)
        | None => (Raise FileNotFoundError, w)
        end
    | None => (Raise FileNotFoundError, w)
    end.

(** [Path.exists()]. *)
Definition exists_ (p : Path) : M World bool :=
  gets (fun w => bool_decide (is_Some (read_file w p))).

(** [shutil.copy2(src, dst)] between regular files. *)
Definition copy2 (src dst : Path) : M World unit :=
  fun w =>
    match read_file w src with
    | Some data =>
        if decide (src = dst) then (Raise SameFileError, w)
        else write_file dst data w
    | None => (Raise FileNotFoundError, w)
    end.

(** The pattern [slide_*.mp3] on one name. *)
Definition matches_slide_glob (name : string) : bool :=
  match Py.strip_prefix "slide_" name with
  | Some rest => Py.ends_with ".mp3" rest
  | None => false
  end.

(** [d.glob('slide_*.mp3')]: the matching entries of directory [d], in the
    order the directory yields them; nothing when [d] does not exist. *)
Definition glob_slides (d : string) : M World (list Path) :=
  gets (fun w =>
    (fun name => (d, name)) <$>
      filter (fun name => matches_slide_glob name = true)
             (map_to_list (dir_state w d)).*1).
End os.

(** ** config.py *)

Module config.
(** The settings as the module defines them. *)
Definition initial : Config :=
  {| SAMPLE_RATE := 44100; CHANNELS := 1; CHUNK_SIZE := 1024;
     FORMAT := "mp3"; BITRATE := "192k";
     DEFAULT_OUTPUT_DIR := "recordings"; DEFAULT_INPUT_DEVICE := None;
     MAX_RECORDING_TIME := 300; MIN_RECORDING_TIME := 1 |}.

(** [FILENAME_PATTERN.format(n)] with the pattern [slide_{:03d}.mp3]. *)
Definition FILENAME_PATTERN_format (n : Z) : string :=
  "slide_" +:+ Py.format_03d n +:+ ".mp3".

Definition init : M World unit :=
  d ← gets (fun w => DEFAULT_OUTPUT_DIR (cfg w));
  os.makedirs d.

Definition get_recording_path (slide_number : Z) : M World Path :=
  let filename := FILENAME_PATTERN_format slide_number in
  d ← gets (fun w => DEFAULT_OUTPUT_DIR (cfg w));
  mret (d, filename).

(** [int(f.stem.split('_')[1])]. *)
Definition slide_number_of (f : Path) : M World Z :=
  field ← from_option IndexError (Py.split "_" (Py.stem f.2) !! 1%nat);
  from_option ValueError (Py.int field).

Definition get_next_slide_number : M World Z :=
  d ← gets (fun w => DEFAULT_OUTPUT_DIR (cfg w));
  existing_files ← os.glob_slides d;
  match existing_files with
  | [] => mret 1
  | _ =>
      numbers ← for_each slide_number_of existing_files;
      m ← from_option ValueError (Py.max numbers);
      mret (m + 1)
  end.
End config.

(** ** The wave module: the canonical uncompressed envelope *)

Module wave.
Definition byte_of_Z (v : Z) : Byte.byte :=
  byte_of_ascii (ascii_of_N (Z.to_N (v mod 256))).

(** [k] bytes of [v], least significant first. *)
Fixpoint le (k : nat) (v : Z) : bytes :=
  match k with
  | O => []
  | S k' => byte_of_Z v :: le k' (v / 256)
  end.

(** [struct.pack('<L', v)] and [struct.pack('<H', v)]. *)
Definition pack_L (v : Z) : option bytes :=
  if decide (0 <= v < 2 ^ 32) then Some (le 4 v) else None.
Definition pack_H (v : Z) : option bytes :=
  if decide (0 <= v < 2 ^ 16) then Some (le 2 v) else None.

Definition header (nchannels sampwidth framerate datalength : Z)
  : option bytes :=
  form ← pack_L (36 + datalength);
  fmt_len ← pack_L 16;
  tag ← pack_H 1;
  nch ← pack_H nchannels;
  fr ← pack_L framerate;
  byte_rate ← pack_L (nchannels * framerate * sampwidth);
  align ← pack_H (nchannels * sampwidth);
  bits ← pack_H (sampwidth * 8);
  len ← pack_L datalength;
  Some (list_byte_of_string "RIFF" ++ form ++
        list_byte_of_string "WAVE" ++ list_byte_of_string "fmt " ++
        fmt_len ++ tag ++ nch ++ fr ++ byte_rate ++ align ++ bits ++
        list_byte_of_string "data" ++ len)%list.

(** A [Wave_write] session on a memory buffer: the three setters, one
    [writeframes(data)], close.  The header carries the byte count that
    was written ([_patchheader]); [None] is [wave.Error] or
    [struct.error]. *)
Definition write (nchannels sampwidth framerate : Z) (data : bytes)
  : option bytes :=
  if decide (nchannels < 1) then None
  else if decide (sampwidth < 1 \/ 4 < sampwidth) then None
  else if decide (framerate <= 0) then None
  else h ← header nchannels sampwidth framerate (Z.of_nat (length data));
       Some (h ++ data)%list.
End wave.

(** ** audio_recorder.py *)

Record Recorder : Type := {
  pyaudio : option pa.PyAudio;
  stream : option pa.Stream;
  frames : list bytes;
  recording : bool;
  start_time : Q;
  _is_cleaning_up : bool
}.

(** The state a method of the engine runs in: its object and the world. *)
Record St : Type := { self : Recorder; world : World }.

Definition on_world {A} (m : M World A) : M St A :=
  fun s =>
    let '(r, w') := m (world s) in (r, {| self := self s; world := w' |}).

Definition on_self (f : Recorder -> Recorder) : M St unit :=
  modify (fun s => {| self := f (self s); world := world s |}).

Definition set_pyaudio (p : option pa.PyAudio) (r : Recorder) : Recorder :=
  {| pyaudio := p; stream := stream r; frames := frames r;
     recording := recording r; start_time := start_time r;
     _is_cleaning_up := _is_cleaning_up r |}.
Definition set_stream (s : option pa.Stream) (r : Recorder) : Recorder :=
  {| pyaudio := pyaudio r; stream := s; frames := frames r;
     recording := recording r; start_time := start_time r;
     _is_cleaning_up := _is_cleaning_up r |}.
Definition set_frames (f : list bytes) (r : Recorder) : Recorder :=
  {| pyaudio := pyaudio r; stream := stream r; frames := f;
     recording := recording r; start_time := start_time r;
     _is_cleaning_up := _is_cleaning_up r |}.
Definition set_recording (b : bool) (r : Recorder) : Recorder :=
  {| pyaudio := pyaudio r; stream := stream r; frames := frames r;
     recording := b; start_time := start_time r;
     _is_cleaning_up := _is_cleaning_up r |}.
Definition set_start_time (t : Q) (r : Recorder) : Recorder :=
  {| pyaudio := pyaudio r; stream := stream r; frames := frames r;
     recording := recording r; start_time := t;
     _is_cleaning_up := _is_cleaning_up r |}.
Definition set_is_cleaning_up (b : bool) (r : Recorder) : Recorder :=
  {| pyaudio := pyaudio r; stream := stream r; frames := frames r;
     recording := recording r; start_time := start_time r;
     _is_cleaning_up := b |}.

Module AudioRecorder.
Section methods.
Context (drv : Driver) (codec : Codec).

(** The external calls of the engine. *)
Definition new_PyAudio : M St pa.PyAudio :=
  on_world (
    k ← gets (fun w => length (log w));
    extern PyAudio_new (PyAudio_ok drv) OSError;;
    mret {| pa.pa_id := k |}).
Definition terminate : M St unit :=
  on_world (extern PyAudio_terminate (terminate_ok drv) OSError).
Definition open (a : pa.open_args) : M St pa.Stream :=
  on_world (
    extern (PyAudio_open a) (fun l => open_ok drv l a) OSError;;
    mret {| pa.opened_with := a |}).
Definition is_active : M St bool :=
  on_world (extern_val Stream_is_active (is_active_reply drv) OSError).
Definition stop_stream : M St unit :=
  on_world (extern Stream_stop_stream (stop_stream_ok drv) OSError).
Definition close : M St unit :=
  on_world (extern Stream_close (close_ok drv) OSError).
Definition read (n : Z) : M St bytes :=
  on_world (extern_val (Stream_read n) (fun l => read_reply drv l n) OSError).
Definition get_device_info_by_index (i : Z) : M St Z :=
  on_world (extern_val (PyAudio_get_device_info_by_index i)
                       (fun l => max_input_channels drv l i) OSError).
Definition time : M St Q :=
  on_world (extern_val time_time (fun l => Some (clock drv l)) OSError).
Definition setting {A} (f : Config -> A) : M St A :=
  gets (fun s => f (cfg (world s))).

Definition _initialize_pyaudio : M St unit :=
  try_except
    (s ← gets (fun s => stream (self s));
     match s with
     | Some _ =>
         active ← is_active;
         (if active : bool then stop_stream else mret tt);;
         close;;
         on_self (set_stream None)
     | None => mret tt
     end;;
     p ← gets (fun s => pyaudio (self s));
     match p with
     | Some _ => terminate
     | None => mret tt
     end;;
     h ← new_PyAudio;
     on_self (set_pyaudio (Some h)))
    (fun e => on_self (set_pyaudio None);; raise e).

Definition _cleanup_stream : M St unit :=
  s ← gets (fun s => stream (self s));
  match s with
  | Some _ =>
      try_finally
        (try_except
           (active ← is_active;
            (if active : bool then stop_stream else mret tt);;
            close)
           (fun _ => mret tt))
        (on_self (set_stream None))
  | None => mret tt
  end.

Definition cleanup : M St unit :=
  busy ← gets (fun s => _is_cleaning_up (self s));
  if busy : bool then mret tt
  else
    on_self (set_is_cleaning_up true);;
    try_finally
      (try_except
         (_cleanup_stream;;
          p ← gets (fun s => pyaudio (self s));
          match p with
          | Some _ => terminate;; on_self (set_pyaudio None)
          | None => mret tt
          end)
         (fun _ => mret tt))
      (on_self (set_is_cleaning_up false)).

(** The object before [__init__] has assigned anything is not observable;
    [__init__] builds it. *)
Definition blank : Recorder :=
  {| pyaudio := None; stream := None; frames := []; recording := false;
     start_time := 0; _is_cleaning_up := false |}.

Definition __init__ : M St unit :=
  on_self (fun _ => blank);;
  _initialize_pyaudio;;
  on_world (extern atexit_register (fun _ => true) OSError).

Definition start_recording : M St unit :=
  rec ← gets (fun s => recording (self s));
  if rec : bool then mret tt
  else
    try_except
      (_initialize_pyaudio;;
       on_self (set_frames []);;
       ch ← setting CHANNELS;
       sr ← setting SAMPLE_RATE;
       chunk ← setting CHUNK_SIZE;
       p ← gets (fun s => pyaudio (self s));
       from_option AttributeError p;;
       st ← open {| pa.format := pa.paInt16; pa.channels := ch;
                    pa.rate := sr; pa.input := true; pa.output := false;
                    pa.input_device_index := None;
                    pa.frames_per_buffer := chunk;
                    pa.stream_callback := None |};
       on_self (set_stream (Some st));;
       on_self (set_recording true);;
       now ← time;
       on_self (set_start_time now))
      (fun e => cleanup;; raise e).

Definition stop_recording : M St (bytes * Q) :=
  rec ← gets (fun s => recording (self s));
  if negb rec then mret ([], 0%Q)
  else
    try_finally
      (try_except
         (on_self (set_recording false);;
          now ← time;
          t0 ← gets (fun s => start_time (self s));
          let duration := (now - t0)%Q in
          s ← gets (fun s => stream (self s));
          match s with
          | Some _ => stop_stream;; close;; on_self (set_stream None)
          | None => mret tt
          end;;
          ch ← setting CHANNELS;
          p ← gets (fun s => pyaudio (self s));
          from_option AttributeError p;;
          width ← from_option ValueError (pa.get_sample_size pa.paInt16);
          sr ← setting SAMPLE_RATE;
          fr ← gets (fun s => frames (self s));
          wav ← from_option WaveError (wave.write ch width sr (concat fr));
          mret (wav, duration))
         (fun _ => mret ([], 0%Q)))
      _cleanup_stream.

Definition convert_to_mp3 (wav_data : bytes) : M St bytes :=
  try_except
    (audio ← from_option CodecError (from_wav codec wav_data);
     bitrate ← setting BITRATE;
     from_option CodecError
       (export codec audio "mp3" bitrate
          ["-codec:a"; "libmp3lame"; "-qscale:a"; "2"; "-threads"; "4"]))
    (fun _ => mret wav_data).

Definition record_chunk : M St bool :=
  rec ← gets (fun s => recording (self s));
  s ← gets (fun s => stream (self s));
  if negb rec || negb (bool_decide (is_Some s)) then mret false
  else
    try_except
      (chunk ← setting CHUNK_SIZE;
       data ← read chunk;
       on_self (fun r => set_frames (frames r ++ [data])%list r);;
       now ← time;
       t0 ← gets (fun s => start_time (self s));
       limit ← setting MAX_RECORDING_TIME;
       mret (Qle_bool (now - t0) (inject_Z limit)))
      (fun _ => cleanup;; mret false).

Definition set_input_device (device_index : Z) : M St bool :=
  try_except
    (p ← gets (fun s => pyaudio (self s));
     from_option AttributeError p;;
     n ← get_device_info_by_index device_index;
     if decide (0 < n) then
       on_world (modify (fun w =>
         set_cfg (set_DEFAULT_INPUT_DEVICE (Some device_index) (cfg w)) w));;
       mret true
     else mret false)
    (fun _ => mret false).

(** [AudioRecorder()]: a new object, initialised. *)
Definition new : M World Recorder :=
  fun w =>
    let '(r, s) := __init__ {| self := blank; world := w |} in
    match r with
    | Ret _ => (Ret (self s), world s)
    | Raise e => (Raise e, world s)
    end.
End methods.
End AudioRecorder.

(** ** file_manager.py *)

Module FileManager.
Section methods.
Context (drv : Driver) (codec : Codec).

Definition __init__ : M World unit := config.init.

Definition save_recording (audio_data : bytes) (slide_number : Z)
  : M World Path :=
  recorder ← AudioRecorder.new drv;
  mp3_data ← (fun w =>
    let '(r, s) := AudioRecorder.convert_to_mp3 codec audio_data
                     {| self := recorder; world := w |} in
    (r, world s));
  output_path ← config.get_recording_path slide_number;
  os.write_file output_path mp3_data;;
  mret output_path.

Definition delete_recording (slide_number : Z) : M World bool :=
  file_path ← config.get_recording_path slide_number;
  try_except
    (os.remove file_path;; mret true)
    (fun e => match e with
              | FileNotFoundError => mret false
              | _ => raise e
              end).

Definition get_recording_list : M World (list Z) :=
  d ← gets (fun w => DEFAULT_OUTPUT_DIR (cfg w));
  files ← os.glob_slides d;
  numbers ← for_each config.slide_number_of files;
  mret (Py.sorted numbers).

Definition recording_exists (slide_number : Z) : M World bool :=
  p ← config.get_recording_path slide_number;
  os.exists_ p.

(** The name [f"slide_{slide_number:03d}_backup.mp3"]. *)
Definition backup_name (slide_number : Z) : string :=
  "slide_" +:+ Py.format_03d slide_number +:+ "_backup.mp3".

Definition backup_recording (slide_number : Z) : M World (option Path) :=
  source_path ← config.get_recording_path slide_number;
  present ← os.exists_ source_path;
  if negb present then mret None
  else
    let backup_path : Path := (source_path.1, backup_name slide_number) in
    os.copy2 source_path backup_path;;
    mret (Some backup_path).

Definition get_next_slide_number : M World Z :=
  config.get_next_slide_number.

End methods.
End FileManager.

(** The two paths the storage manager derives from a slide number, and the
    bytes the encoder yields for a buffer ([None] when it raises). *)
Definition recording_path (w : World) (n : Z) : Path :=
  (DEFAULT_OUTPUT_DIR (cfg w), config.FILENAME_PATTERN_format n).
Definition backup_path (w : World) (n : Z) : Path :=
  (DEFAULT_OUTPUT_DIR (cfg w), FileManager.backup_name n).
Definition mp3_of (codec : Codec) (bitrate : string) (wav_data : bytes)
  : option bytes :=
  audio ← from_wav codec wav_data;
  export codec audio "mp3" bitrate
    ["-codec:a"; "libmp3lame"; "-qscale:a"; "2"; "-threads"; "4"].

(** ** cli_interface.py and main.py: construction of the application *)

Record CLIInterface : Type := {
  cli_recording : bool;
  waiting_for_start : bool
}.

Record SlideRecorderApp : Type := {
  audio_recorder : Recorder;
  cli : CLIInterface
}.

Module SlideRecorder.
Section methods.
Context (drv : Driver).

Definition CLIInterface_init (enable_keyboard_hooks : bool)
  : M World CLIInterface :=
  (if enable_keyboard_hooks
   then extern (keyboard_on_press_key "space") (hook_ok drv) OSError
   else mret tt);;
  mret {| cli_recording := false; waiting_for_start := false |}.

(** [SlideRecorder.__init__]; [output_dir = None] is the omitted
    argument. *)
Definition __init__ (output_dir : option string) (audio_quality : string)
    (enable_keyboard_hooks : bool) : M World SlideRecorderApp :=
  match output_dir with
  | Some (String c d) =>
      modify (fun w =>
        set_cfg (set_DEFAULT_OUTPUT_DIR (String c d) (cfg w)) w)
  | _ => mret tt
  end;;
  (if decide (audio_quality = "low") then
     modify (fun w => set_cfg (set_BITRATE "64k" (cfg w)) w)
   else if decide (audio_quality = "medium") then
     modify (fun w => set_cfg (set_BITRATE "96k" (cfg w)) w)
   else
     modify (fun w => set_cfg (set_BITRATE "128k" (cfg w)) w));;
  FileManager.__init__;;
  recorder ← AudioRecorder.new drv;
  c ← CLIInterface_init enable_keyboard_hooks;
  extern signal_signal (fun _ => true) OSError;;
  mret {| audio_recorder := recorder; cli := c |}.

(** The command line of [run_recorder.py] up to the construction of the
    application: an option that is not given takes its default, and
    [--debug] switches the keyboard hooks off. *)
Definition run (output_dir audio_quality : option string) (debug : bool)
  : M World SlideRecorderApp :=
  __init__ (Some (default "recordings" output_dir))
           (default "high" audio_quality)
           (negb debug).
End methods.
End SlideRecorder.

(** ** Concrete environments for the examples *)

Module Demo.
(** A device on which every call succeeds; the clock advances by one
    second per external call. *)
Definition studio : Driver :=
  {| PyAudio_ok := fun _ => true; terminate_ok := fun _ => true;
     open_ok := fun _ _ => true; is_active_reply := fun _ => Some true;
     stop_stream_ok := fun _ => true; close_ok := fun _ => true;
     read_reply := fun _ _ => Some [Byte.x01; Byte.x02];
     max_input_channels := fun _ i =>
       if decide (i = 0) then Some 2
       else if decide (i = 1) then Some 0
       else if decide (i = 2) then Some 1
       else None;
     clock := fun l => inject_Z (Z.of_nat (length l));
     hook_ok := fun _ => true |}.

(** The same device with no stream to open, and with reads that fail. *)
Definition no_microphone : Driver :=
  {| PyAudio_ok := PyAudio_ok studio; terminate_ok := terminate_ok studio;
     open_ok := fun _ _ => false; is_active_reply := is_active_reply studio;
     stop_stream_ok := stop_stream_ok studio; close_ok := close_ok studio;
     read_reply := read_reply studio;
     max_input_channels := max_input_channels studio;
     clock := clock studio; hook_ok := hook_ok studio |}.
Definition unplugged : Driver :=
  {| PyAudio_ok := PyAudio_ok studio; terminate_ok := terminate_ok studio;
     open_ok := open_ok studio; is_active_reply := is_active_reply studio;
     stop_stream_ok := stop_stream_ok studio; close_ok := close_ok studio;
     read_reply := fun _ _ => None;
     max_input_channels := max_input_channels studio;
     clock := clock studio; hook_ok := hook_ok studio |}.

(** An encoder that works, and one that always raises. *)
Definition lame : Codec :=
  {| segment := bytes; from_wav := fun b => Some b;
     export := fun a _ _ _ => Some (Byte.x4d :: a) |}.
Definition broken : Codec :=
  {| segment := bytes; from_wav := fun b => Some b;
     export := fun _ _ _ _ => None |}.

(** The world after start-up with the given files in the output
    directory. *)
Definition with_files (l : list (string * bytes)) : World :=
  {| cfg := config.initial;
     fs := {[ "recordings" := list_to_map l ]};
     log := [] |}.

Definition clip : bytes := [Byte.x52; Byte.x49; Byte.x46; Byte.x46].
Definition retake : bytes := [Byte.x57; Byte.x41; Byte.x56; Byte.x45].

(** A fresh engine in an empty output directory. *)
Definition idle : St :=
  {| self := AudioRecorder.blank; world := with_files [] |}.

(** Run a method for its final state. *)
Definition after {A} (m : M St A) (s : St) : St := (m s).2.

(** The output directory after slide 5 was saved and backed up, and after
    the recording was then deleted. *)
Definition backed_up : World :=
  (FileManager.backup_recording 5
     (FileManager.save_recording studio lame clip 5 (with_files [])).2).2.
Definition backup_left : World :=
  (FileManager.delete_recording 5 backed_up).2.

(** An output directory that holds the recordings of slides 1 and 3. *)
Definition two_slides : World :=
  with_files [("slide_001.mp3", clip); ("slide_003.mp3", retake)].

(** The engine right after a session was started. *)
Definition started : St :=
  after (AudioRecorder.start_recording studio)
    (after (AudioRecorder.__init__ studio) idle).

(** The engine in the middle of a session: constructed, started, one
    chunk read. *)
Definition recorded : St :=
  after (AudioRecorder.record_chunk studio)
    (after (AudioRecorder.start_recording studio)
       (after (AudioRecorder.__init__ studio) idle)).
End Demo.

(** ** Vocabulary of the properties *)

(** [commutes T m]: running [m] after the change [T] of the state is running
    [m] and then changing the state; [m] neither reads nor overwrites what
    [T] changes. *)
Definition commutes {S A} (T : S -> S) (m : M S A) : Prop :=
  forall s, m (T s) = (let '(r, s') := m s in (r, T s')).

(** [respects R m]: every run of [m] takes a state to an [R]-related one. *)
Definition respects {S A} (R : S -> S -> Prop) (m : M S A) : Prop :=
  forall s, R s (m s).2.

(** The change of one setting: the selected input device. *)
Definition select_device (d : option Z) (s : St) : St :=
  {| self := self s;
     world := set_cfg (set_DEFAULT_INPUT_DEVICE d (cfg (world s))) (world s) |}.

(** A call that, if it opens a stream, names no input device. *)
Definition default_device_only (c : Call) : Prop :=
  match c with
  | PyAudio_open a => pa.input_device_index a = None
  | _ => True
  end.

(** [s'] is [s] after more external calls, all of them satisfying [P]. *)
Definition logs_only (P : Call -> Prop) (s s' : St) : Prop :=
  exists calls, log (world s') = log (world s) ++ calls /\ Forall P calls.

(** The parameters [start_recording] opens the input stream with. *)
Definition input_stream_args (c : Config) : pa.open_args :=
  {| pa.format := pa.paInt16; pa.channels := CHANNELS c;
     pa.rate := SAMPLE_RATE c; pa.input := true; pa.output := false;
     pa.input_device_index := None;
     pa.frames_per_buffer := CHUNK_SIZE c;
     pa.stream_callback := None |}.

(** The number a matched name stands for, when it has one. *)
Definition parsed_number (name : string) : option Z :=
  Py.split "_" (Py.stem name) !! 1%nat ≫= Py.int.

(** Every name in the output directory is the name of a recording. *)
Definition only_recordings (w : World) : Prop :=
  forall name,
    name ∈ dom (os.dir_state w (DEFAULT_OUTPUT_DIR (cfg w))) ->
    exists n, name = config.FILENAME_PATTERN_format n.

(** * Properties *)

(** ** Text: decimal rendering and parsing *)

Local Arguments String.append : simpl nomatch.

Section text.
Import Py.

Lemma string_app_assoc (s t u : string) : (s +:+ t) +:+ u = s +:+ (t +:+ u).
Proof. induction s as [|c s IH]; simpl; [done|]. by f_equal. Qed.

Lemma string_app_nil_r (s : string) : s +:+ EmptyString = s.
Proof. induction s as [|c s IH]; simpl; [done|]. by f_equal. Qed.

Lemma string_app_length (s t : string) :
  String.length (s +:+ t) = (String.length s + String.length t)%nat.
Proof. induction s as [|c s IH]; simpl; [done|]. by f_equal. Qed.

Lemma all_chars_app P s t :
  all_chars P (s +:+ t) = all_chars P s && all_chars P t.
Proof. induction s as [|c s IH]; simpl; [done|]. by rewrite IH, andb_assoc. Qed.

Lemma all_chars_impl (P Q : ascii -> bool) s :
  (forall c, P c = true -> Q c = true) ->
  all_chars P s = true -> all_chars Q s = true.
Proof.
  intros HPQ. induction s as [|c s IH]; simpl; [done|].
  rewrite !andb_true_iff. intros [? ?]. auto.
Qed.

Lemma digit_val_char d : (d < 10)%N -> digit_val (digit_char d) = Some d.
Proof.
  intros Hd. unfold digit_val, digit_char.
  rewrite N_ascii_embedding by lia.
  replace ((48 <=? 48 + d)%N && (48 + d <=? 57)%N) with true.
  - f_equal. lia.
  - symmetry. apply andb_true_iff. split; apply N.leb_le; lia.
Qed.

Lemma int_digits_app s t acc :
  int_digits (s +:+ t) acc = int_digits s acc ≫= int_digits t.
Proof.
  revert acc. induction s as [|c s IH]; intros acc; simpl; [done|].
  destruct (digit_val c); [apply IH|done].
Qed.

Lemma str_go_app fuel n acc :
  str_go fuel n acc = str_go fuel n EmptyString +:+ acc.
Proof.
  revert n acc. induction fuel as [|fuel IH]; intros n acc; simpl; [done|].
  destruct (n <? 10)%N; [done|].
  rewrite IH. rewrite (IH _ (String _ EmptyString)).
  by rewrite string_app_assoc.
Qed.

Lemma int_digits_str_go fuel n :
  (n < 10 ^ N.of_nat fuel)%N ->
  int_digits (str_go fuel n EmptyString) 0 = Some n.
Proof.
  revert n. induction fuel as [|fuel IH]; intros n Hn.
  - simpl in *. f_equal. lia.
  - cbn [str_go]. destruct (N.ltb_spec n 10) as [Hlt|Hge].
    + rewrite N.mod_small by done. simpl. rewrite digit_val_char by done.
      f_equal. 
    + rewrite str_go_app, int_digits_app, IH.
      * simpl. rewrite digit_val_char by (apply N.mod_lt; lia).
        f_equal. pose proof (N.div_mod n 10). lia.
      * apply N.Div0.div_lt_upper_bound.
        rewrite Nat2N.inj_succ, N.pow_succ_r' in Hn. lia.
Qed.

Lemma str_N_fuel n : (n < 10 ^ N.of_nat (S (N.to_nat (N.log2 n))))%N.
Proof.
  rewrite Nat2N.inj_succ, N2Nat.id.
  destruct (N.eq_dec n 0%N) as [->|Hn]; [done|].
  eapply N.lt_le_trans; [apply N.log2_spec; lia|].
  apply N.pow_le_mono_l. lia.
Qed.

Lemma str_go_digits fuel n acc :
  all_chars is_digit acc = true -> all_chars is_digit (str_go fuel n acc) = true.
Proof.
  revert n acc. induction fuel as [|fuel IH]; intros n acc Hacc; simpl; [done|].
  assert (all_chars is_digit (String (digit_char (n mod 10)) acc) = true) as H.
  { simpl. rewrite Hacc, andb_true_r. unfold is_digit.
    rewrite digit_val_char by (apply N.mod_lt; lia). by apply bool_decide_eq_true. }
  destruct (n <? 10)%N; auto.
Qed.

Lemma str_go_nonempty fuel n acc :
  str_go (S fuel) n acc <> EmptyString.
Proof.
  revert n acc. induction fuel as [|fuel IH]; intros n acc.
  - simpl. by destruct (n <? 10)%N.
  - change (str_go (S (S fuel)) n acc) with
      (if (n <? 10)%N then String (digit_char (n mod 10)) acc
       else str_go (S fuel) (n / 10) (String (digit_char (n mod 10)) acc)).
    destruct (n <? 10)%N; [done|apply IH].
Qed.

Lemma int_unsigned_digits s :
  s <> EmptyString -> int_unsigned s = int_digits s 0.
Proof. by destruct s. Qed.

Lemma int_unsigned_str_N n : int_unsigned (str_N n) = Some n.
Proof.
  rewrite int_unsigned_digits by apply str_go_nonempty.
  apply int_digits_str_go, str_N_fuel.
Qed.

Lemma str_N_digits n : all_chars is_digit (str_N n) = true.
Proof. by apply str_go_digits. Qed.

Lemma zeros_digits k : all_chars is_digit (zeros k) = true.
Proof. induction k; simpl; [done|]. by rewrite IHk. Qed.

Lemma int_digits_zeros k s : int_digits (zeros k +:+ s) 0 = int_digits s 0.
Proof. induction k; simpl; done. Qed.

Lemma zfill_digits w s :
  all_chars is_digit s = true -> all_chars is_digit (zfill w s) = true.
Proof. intros H. unfold zfill. by rewrite all_chars_app, zeros_digits, H. Qed.

Lemma zfill_nonempty w s : s <> EmptyString -> zfill w s <> EmptyString.
Proof.
  unfold zfill. intros Hs H. apply (f_equal String.length) in H.
  rewrite string_app_length in H. destruct s; [done|]. simpl in H. lia.
Qed.

Lemma int_unsigned_zfill w n : int_unsigned (zfill w (str_N n)) = Some n.
Proof.
  rewrite int_unsigned_digits by apply zfill_nonempty, str_go_nonempty.
  unfold zfill. rewrite int_digits_zeros.
  apply int_digits_str_go, str_N_fuel.
Qed.

(** White space is stripped only at the two ends. *)
Lemma lstrip_id c s : is_space c = false -> lstrip (String c s) = String c s.
Proof. intros H. simpl. by rewrite H. Qed.

Lemma rstrip_id s :
  all_chars (fun c => negb (is_space c)) s = true -> rstrip s = s.
Proof.
  induction s as [|c s IH]; simpl; [done|].
  rewrite andb_true_iff, negb_true_iff. intros [Hc Hs].
  rewrite IH by done. destruct s; [by rewrite Hc|done].
Qed.

Lemma strip_id s :
  all_chars (fun c => negb (is_space c)) s = true -> strip s = s.
Proof.
  intros H. unfold strip. destruct s as [|c s]; [done|].
  simpl in H. apply andb_true_iff in H as [Hc Hs].
  apply negb_true_iff in Hc. rewrite lstrip_id by done.
  apply rstrip_id. simpl. by rewrite Hc, Hs.
Qed.

Lemma digit_not_space c : is_digit c = true -> negb (is_space c) = true.
Proof.
  unfold is_digit, digit_val, is_space. intros H.
  apply bool_decide_eq_true in H as [d H].
  destruct (_ && _)%N eqn:E in H; [|done].
  apply andb_true_iff in E as [E1 E2].
  apply N.leb_le in E1, E2. apply negb_true_iff, orb_false_iff.
  split; apply andb_false_iff; rewrite !N.leb_gt; lia.
Qed.

Lemma digit_not_sign c : is_digit c = true -> c <> "-"%char /\ c <> "+"%char.
Proof.
  unfold is_digit, digit_val. intros H.
  apply bool_decide_eq_true in H as [d H].
  split; intros ->; done.
Qed.

Lemma int_of_digits s n :
  all_chars is_digit s = true -> int_unsigned s = Some n ->
  int s = Some (Z.of_N n).
Proof.
  intros Hd Hs. unfold int.
  rewrite strip_id by (eapply all_chars_impl; [apply digit_not_space|done]).
  destruct s as [|c s]; [done|].
  simpl in Hd. apply andb_true_iff in Hd as [Hc _].
  destruct (digit_not_sign c Hc) as [Hm Hp].
  destruct c as [[] [] [] [] [] [] [] []];
    try (by exfalso; auto); cbv iota beta; by rewrite Hs.
Qed.

(** Parsing undoes formatting, for every integer. *)
Lemma int_format_03d n : int (format_03d n) = Some n.
Proof.
  unfold format_03d. destruct (Z.ltb_spec n 0) as [Hneg|Hpos].
  - unfold int. rewrite strip_id.
    + rewrite int_unsigned_zfill. simpl. f_equal. lia.
    + simpl. eapply all_chars_impl; [apply digit_not_space|].
      apply zfill_digits, str_N_digits.
  - rewrite (int_of_digits _ (Z.to_N n)).
    + f_equal. lia.
    + apply zfill_digits, str_N_digits.
    + apply int_unsigned_zfill.
Qed.

Lemma format_03d_numeral n : all_chars is_numeral (format_03d n) = true.
Proof.
  assert (forall s, all_chars is_digit s = true -> all_chars is_numeral s = true) as H.
  { intros s. apply all_chars_impl. unfold is_numeral. by intros c ->. }
  unfold format_03d. destruct (n <? 0)%Z.
  - simpl. apply H, zfill_digits, str_N_digits.
  - apply H, zfill_digits, str_N_digits.
Qed.

Lemma numeral_not_sep c : is_numeral c = true -> Ascii.eqb c "_" = false.
Proof.
  unfold is_numeral. intros [H| ->%Ascii.eqb_eq]%orb_true_iff; [|done].
  unfold is_digit, digit_val in H. apply bool_decide_eq_true in H as [d H].
  apply Ascii.eqb_neq. by intros ->.
Qed.

Lemma split_cons_other sep c s :
  Ascii.eqb c sep = false ->
  split sep (String c s) =
    match split sep s with
    | w :: ws => String c w :: ws
    | [] => [String c EmptyString]
    end.
Proof. intros H. simpl. by rewrite H. Qed.

Lemma split_numeral s rest :
  all_chars is_numeral s = true ->
  split "_" (s +:+ String "_" rest) = s :: split "_" rest.
Proof.
  induction s as [|c s IH]; simpl; [done|].
  intros [Hc Hs]%andb_true_iff.
  rewrite (numeral_not_sep c Hc), IH by done. done.
Qed.

Lemma split_numeral_last s :
  all_chars is_numeral s = true -> split "_" s = [s].
Proof.
  induction s as [|c s IH]; simpl; [done|].
  intros [Hc Hs]%andb_true_iff.
  rewrite (numeral_not_sep c Hc), IH by done. done.
Qed.

Lemma rpartition_dot_mp3 x :
  rpartition_dot (x +:+ ".mp3") = Some (x, "mp3").
Proof. induction x as [|c x IH]; simpl; [done|]. by rewrite IH. Qed.

Lemma stem_mp3 c x : stem (String c x +:+ ".mp3") = String c x.
Proof. unfold stem. by rewrite rpartition_dot_mp3. Qed.

Lemma ends_with_app suffix x : ends_with suffix (x +:+ suffix) = true.
Proof.
  induction x as [|c x IH].
  - destruct suffix; cbn [ends_with String.append]; by rewrite String.eqb_refl.
  - cbn [ends_with String.append]. rewrite IH. by destruct (String.eqb _ _).
Qed.

Lemma ends_with_inv suffix s :
  ends_with suffix s = true -> exists x, s = x +:+ suffix.
Proof.
  induction s as [|c s IH]; cbn [ends_with].
  - destruct (String.eqb_spec EmptyString suffix) as [<-|]; [|done].
    by exists EmptyString.
  - destruct (String.eqb_spec (String c s) suffix) as [<-|].
    + by exists EmptyString.
    + intros [x ->]%IH. by exists (String c x).
Qed.
End text.

(** ** The naming scheme *)

Section naming.
Import Py.

Lemma slide_number_of_recording d n w :
  config.slide_number_of (d, config.FILENAME_PATTERN_format n) w = (Ret n, w).
Proof.
  unfold config.slide_number_of, config.FILENAME_PATTERN_format.
  cbn [snd]. rewrite <- string_app_assoc.
  change ("slide_" +:+ format_03d n) with
    (String "s" ("lide_" +:+ format_03d n)).
  rewrite stem_mp3.
  change (String "s" ("lide_" +:+ format_03d n)) with
    ("slide" +:+ String "_" (format_03d n)).
  assert (split "_" ("slide" +:+ String "_" (format_03d n))
          = ["slide"; format_03d n]) as ->.
  { cbn [String.append]. rewrite !split_cons_other by done.
    cbn [split]. rewrite Ascii.eqb_refl.
    by rewrite (split_numeral_last _ (format_03d_numeral n)). }
  cbn [lookup list_lookup from_option]. unfold mbind, M_bind, mret, M_ret.
  cbn. by rewrite int_format_03d.
Qed.

Lemma slide_number_of_backup d n w :
  config.slide_number_of (d, FileManager.backup_name n) w = (Ret n, w).
Proof.
  unfold config.slide_number_of, FileManager.backup_name.
  cbn [snd].
  change "_backup.mp3" with ("_backup" +:+ ".mp3").
  rewrite <- !string_app_assoc.
  change (("slide_" +:+ format_03d n) +:+ "_backup") with
    (String "s" (("lide_" +:+ format_03d n) +:+ "_backup")).
  rewrite stem_mp3.
  assert (split "_" (String "s" (("lide_" +:+ format_03d n) +:+ "_backup"))
          = ["slide"; format_03d n; "backup"]) as ->.
  { cbn [String.append]. rewrite !split_cons_other by done.
    cbn [split]. rewrite Ascii.eqb_refl.
    by rewrite (split_numeral _ _ (format_03d_numeral n)). }
  cbn [lookup list_lookup from_option]. unfold mbind, M_bind, mret, M_ret.
  cbn. by rewrite int_format_03d.
Qed.

Lemma glob_recording n :
  os.matches_slide_glob (config.FILENAME_PATTERN_format n) = true.
Proof.
  unfold os.matches_slide_glob, config.FILENAME_PATTERN_format.
  cbn [String.append strip_prefix Ascii.eqb Bool.eqb].
  apply ends_with_app.
Qed.

Lemma glob_backup n :
  os.matches_slide_glob (FileManager.backup_name n) = true.
Proof.
  unfold os.matches_slide_glob, FileManager.backup_name.
  cbn [String.append strip_prefix Ascii.eqb Bool.eqb].
  change "_backup.mp3" with ("_backup" +:+ ".mp3").
  rewrite <- string_app_assoc. apply ends_with_app.
Qed.

Lemma FILENAME_PATTERN_format_inj n m :
  config.FILENAME_PATTERN_format n = config.FILENAME_PATTERN_format m -> n = m.
Proof.
  intros H.
  pose proof (slide_number_of_recording "" n
    {| cfg := config.initial; fs := ∅; log := [] |}) as Hn.
  rewrite H, slide_number_of_recording in Hn. congruence.
Qed.

Lemma backup_name_inj n m :
  FileManager.backup_name n = FileManager.backup_name m -> n = m.
Proof.
  intros H.
  pose proof (slide_number_of_backup "" n
    {| cfg := config.initial; fs := ∅; log := [] |}) as Hn.
  rewrite H, slide_number_of_backup in Hn. congruence.
Qed.

(** A backup never has the name of a recording. *)
Lemma backup_name_not_recording n m :
  FileManager.backup_name n <> config.FILENAME_PATTERN_format m.
Proof.
  intros H.
  pose proof (slide_number_of_backup "" n
    {| cfg := config.initial; fs := ∅; log := [] |}) as Hn.
  rewrite H, slide_number_of_recording in Hn.
  assert (m = n) as -> by congruence.
  unfold FileManager.backup_name, config.FILENAME_PATTERN_format in H.
  by do 2 apply (inj (String.app _)) in H.
Qed.
End naming.

(** ** The file system primitives *)

Section files.
Implicit Types (w : World) (p q : Path) (data : bytes).

Lemma read_file_set_cfg c w p : os.read_file (set_cfg c w) p = os.read_file w p.
Proof. done. Qed.

Lemma read_file_set_log l w p : os.read_file (set_log l w) p = os.read_file w p.
Proof. done. Qed.

Lemma read_file_dir_state w d name :
  os.read_file w (d, name) = os.dir_state w d !! name.
Proof.
  unfold os.read_file, os.dir_state. cbn [fst snd].
  by destruct (fs w !! d).
Qed.

Lemma write_file_ok w p data m :
  fs w !! p.1 = Some m ->
  os.write_file p data w
    = (Ret tt, set_fs (<[p.1 := <[p.2 := data]> m]> (fs w)) w).
Proof. intros H. unfold os.write_file. by rewrite H. Qed.

Lemma read_file_insert f w d m name data q :
  os.read_file (set_fs (<[d := <[name := data]> m]> f) w) q
    = if decide (q = (d, name)) then Some data
      else if decide (q.1 = d) then m !! q.2
      else f !! q.1 ≫= fun m' => m' !! q.2.
Proof.
  unfold os.read_file. destruct q as [d' name']. cbn [fst snd fs set_fs].
  destruct (decide (d' = d)) as [->|Hd].
  - rewrite lookup_insert_eq. cbn.
    destruct (decide (name' = name)) as [->|Hn].
    + rewrite lookup_insert_eq. by rewrite decide_True.
    + rewrite lookup_insert_ne by done. rewrite decide_False by congruence.
      done.
  - rewrite lookup_insert_ne by done. rewrite decide_False by congruence.
    done.
Qed.

Lemma read_file_delete w d m name q :
  fs w !! d = Some m ->
  os.read_file (set_fs (<[d := delete name m]> (fs w)) w) q
    = if decide (q = (d, name)) then None else os.read_file w q.
Proof.
  intros Hm. unfold os.read_file. destruct q as [d' name'].
  cbn [fst snd fs set_fs].
  destruct (decide (d' = d)) as [->|Hd].
  - rewrite lookup_insert_eq, Hm. cbn.
    destruct (decide (name' = name)) as [->|Hn].
    + rewrite lookup_delete_eq. by rewrite decide_True.
    + rewrite lookup_delete_ne by done. rewrite decide_False by congruence.
      done.
  - rewrite lookup_insert_ne by done. rewrite decide_False by congruence.
    done.
Qed.
End files.

(** ** Storage manager *)

Local Arguments config.FILENAME_PATTERN_format : simpl never.
Local Arguments FileManager.backup_name : simpl never.

Section storage.
Context (drv : Driver) (codec : Codec).
Implicit Types (w : World) (n : Z).

Lemma remove_run p w :
  os.remove p w =
    match os.read_file w p with
    | Some _ =>
        (Ret tt,
         set_fs (<[p.1 := delete p.2 (os.dir_state w p.1)]> (fs w)) w)
    | None => (Raise FileNotFoundError, w)
    end.
Proof.
  unfold os.remove, os.read_file, os.dir_state.
  destruct (fs w !! p.1) as [m|]; simpl; [|done].
  by destruct (m !! p.2).
Qed.

Lemma delete_recording_run n w :
  FileManager.delete_recording n w =
    match os.read_file w (recording_path w n) with
    | Some _ =>
        (Ret true,
         set_fs (<[DEFAULT_OUTPUT_DIR (cfg w) :=
                    delete (config.FILENAME_PATTERN_format n)
                           (os.dir_state w (DEFAULT_OUTPUT_DIR (cfg w)))]>
                   (fs w)) w)
    | None => (Ret false, w)
    end.
Proof.
  unfold FileManager.delete_recording, config.get_recording_path.
  unfold mbind, M_bind, mret, M_ret, gets, try_except.
  rewrite remove_run. fold (recording_path w n).
  by destruct (os.read_file w (recording_path w n)).
Qed.

(** C6: [delete_recording n] never raises; it returns [True] exactly when
    a file was stored at the path of slide [n]; afterwards nothing is
    stored at that path, every other path is as before, and a missing file
    leaves the world unchanged. *)
Theorem delete_recording_spec n w :
  exists w',
    FileManager.delete_recording n w
      = (Ret (bool_decide (is_Some (os.read_file w (recording_path w n)))), w')
    /\ os.read_file w' (recording_path w n) = None
    /\ (forall q, q <> recording_path w n ->
                  os.read_file w' q = os.read_file w q)
    /\ (os.read_file w (recording_path w n) = None -> w' = w).
Proof.
  rewrite delete_recording_run.
  destruct (os.read_file w (recording_path w n)) as [data|] eqn:Hf.
  - eexists. split; [reflexivity|].
    assert (fs w !! DEFAULT_OUTPUT_DIR (cfg w)
            = Some (os.dir_state w (DEFAULT_OUTPUT_DIR (cfg w)))) as Hd.
    { unfold os.read_file, os.dir_state, recording_path in *.
      cbn [fst snd] in Hf. by destruct (fs w !! _). }
    split; [|split; [|done]].
    + rewrite read_file_delete by done. by rewrite decide_True.
    + intros q Hq. rewrite read_file_delete by done. by rewrite decide_False.
  - by exists w.
Qed.

Lemma read_file_Some_dir w d name data :
  os.read_file w (d, name) = Some data ->
  fs w !! d = Some (os.dir_state w d).
Proof.
  unfold os.read_file, os.dir_state. cbn [fst snd].
  by destruct (fs w !! d).
Qed.

Lemma backup_recording_run n w :
  FileManager.backup_recording n w =
    match os.read_file w (recording_path w n) with
    | Some data =>
        (Ret (Some (backup_path w n)),
         set_fs (<[DEFAULT_OUTPUT_DIR (cfg w) :=
                    <[FileManager.backup_name n := data]>
                      (os.dir_state w (DEFAULT_OUTPUT_DIR (cfg w)))]>
                   (fs w)) w)
    | None => (Ret None, w)
    end.
Proof.
  unfold FileManager.backup_recording, config.get_recording_path, os.exists_.
  unfold mbind, M_bind, mret, M_ret, gets, os.copy2.
  fold (recording_path w n).
  destruct (os.read_file w (recording_path w n)) as [data|] eqn:Hf.
  - rewrite bool_decide_eq_true_2 by done. cbn [negb fst]. rewrite Hf.
    rewrite decide_False.
    + erewrite write_file_ok; [done|].
      by apply read_file_Some_dir in Hf.
    + intros H%(f_equal snd). by destruct (backup_name_not_recording n n).
  - rewrite bool_decide_eq_false_2 by (by intros [? ?]). done.
Qed.

(** C7: without a recording of slide [n], [backup_recording n] returns
    [None] and changes nothing.  With one, it returns the sibling path
    with the [_backup] suffix; that path then holds the bytes of the
    recording, whatever it held before; the recording is untouched, and
    the directory has gained no name but that of the one backup. *)
Theorem backup_recording_spec n w :
  match os.read_file w (recording_path w n) with
  | None => FileManager.backup_recording n w = (Ret None, w)
  | Some data =>
      exists w',
        FileManager.backup_recording n w = (Ret (Some (backup_path w n)), w')
        /\ backup_path w n
           = (DEFAULT_OUTPUT_DIR (cfg w),
              "slide_" +:+ Py.format_03d n +:+ "_backup.mp3")
        /\ os.read_file w' (backup_path w n) = Some data
        /\ os.read_file w' (recording_path w n) = Some data
        /\ (forall q, q <> backup_path w n ->
                      os.read_file w' q = os.read_file w q)
        /\ dom (os.dir_state w' (DEFAULT_OUTPUT_DIR (cfg w)))
           = {[FileManager.backup_name n]}
             ∪ dom (os.dir_state w (DEFAULT_OUTPUT_DIR (cfg w)))
  end.
Proof.
  rewrite backup_recording_run.
  destruct (os.read_file w (recording_path w n)) as [data|] eqn:Hf; [|done].
  eexists. split; [reflexivity|]. split; [done|].
  pose proof (read_file_Some_dir _ _ _ _ Hf) as Hd.
  assert (forall q, q <> backup_path w n ->
    os.read_file
      (set_fs (<[DEFAULT_OUTPUT_DIR (cfg w) :=
                 <[FileManager.backup_name n := data]>
                   (os.dir_state w (DEFAULT_OUTPUT_DIR (cfg w)))]> (fs w)) w) q
    = os.read_file w q) as Hframe.
  { intros q Hq. rewrite read_file_insert.
    rewrite decide_False by done.
    destruct (decide (q.1 = DEFAULT_OUTPUT_DIR (cfg w))) as [Hq1|]; [|done].
    destruct q as [d name]. cbn [fst snd] in *. subst d.
    by rewrite read_file_dir_state. }
  split; [|split; [|split; [done|]]].
  - rewrite read_file_insert. by rewrite decide_True.
  - rewrite Hframe; [done|].
    intros H%(f_equal snd). by destruct (backup_name_not_recording n n).
  - unfold os.dir_state at 1. cbn [fs set_fs].
    rewrite lookup_insert_eq. cbn. by rewrite dom_insert_L.
Qed.
End storage.

(** ** Encoding and saving *)

Section encoding.
Context (drv : Driver) (codec : Codec).
Implicit Types (w : World) (s : St) (n : Z).

Lemma convert_to_mp3_run wav_data s :
  AudioRecorder.convert_to_mp3 codec wav_data s
    = (Ret (default wav_data
              (mp3_of codec (BITRATE (cfg (world s))) wav_data)), s).
Proof.
  unfold AudioRecorder.convert_to_mp3, mp3_of, AudioRecorder.setting.
  unfold try_except, mbind, M_bind, option_bind, gets, from_option.
  destruct (from_wav codec wav_data) as [audio|]; [|done].
  cbn. by destruct (export codec audio _ _ _).
Qed.

(** C5: when the encoder raises on a buffer, [convert_to_mp3] returns
    normally, its result is the buffer it was given, and nothing else
    changes. *)
Theorem convert_to_mp3_fallback wav_data s :
  mp3_of codec (BITRATE (cfg (world s))) wav_data = None ->
  AudioRecorder.convert_to_mp3 codec wav_data s = (Ret wav_data, s).
Proof. intros H. by rewrite convert_to_mp3_run, H. Qed.

Lemma new_run w :
  AudioRecorder.new drv w =
    if PyAudio_ok drv (log w)
    then (Ret {| pyaudio := Some {| pa.pa_id := length (log w) |};
                 stream := None; frames := []; recording := false;
                 start_time := 0; _is_cleaning_up := false |},
          set_log (log w ++ [PyAudio_new; atexit_register]) w)
    else (Raise OSError, set_log (log w ++ [PyAudio_new]) w).
Proof.
  unfold AudioRecorder.new, AudioRecorder.__init__,
    AudioRecorder._initialize_pyaudio, AudioRecorder.new_PyAudio.
  unfold try_except, mbind, M_bind, mret, M_ret, on_self, on_world, modify,
    gets, extern, raise.
  cbn. destruct (PyAudio_ok drv (log w)); cbn; [|done].
  unfold set_log. cbn. by rewrite <- app_assoc.
Qed.

Lemma save_recording_run audio_data n w :
  FileManager.save_recording drv codec audio_data n w =
    if PyAudio_ok drv (log w) then
      let w1 := set_log (log w ++ [PyAudio_new; atexit_register]) w in
      let mp3_data :=
        default audio_data (mp3_of codec (BITRATE (cfg w)) audio_data) in
      match fs w !! DEFAULT_OUTPUT_DIR (cfg w) with
      | Some m =>
          (Ret (recording_path w n),
           set_fs (<[DEFAULT_OUTPUT_DIR (cfg w) :=
                      <[config.FILENAME_PATTERN_format n := mp3_data]> m]>
                     (fs w)) w1)
      | None => (Raise FileNotFoundError, w1)
      end
    else (Raise OSError, set_log (log w ++ [PyAudio_new]) w).
Proof.
  unfold FileManager.save_recording.
  unfold mbind at 1, M_bind at 1. rewrite new_run.
  destruct (PyAudio_ok drv (log w)); [|done].
  unfold mbind at 1, M_bind at 1. rewrite convert_to_mp3_run. cbn [fst snd world].
  unfold config.get_recording_path, os.write_file.
  unfold mbind, M_bind, mret, M_ret, gets. cbn [fst snd cfg fs set_log].
  by destruct (fs w !! DEFAULT_OUTPUT_DIR (cfg w)).
Qed.

(** C4: when [save_recording clip n] returns, it returns the path derived
    from [n], and the file at that path holds exactly the bytes that
    [convert_to_mp3 clip] returns under the same configured bitrate. *)
Theorem save_recording_roundtrip clip n w p w' :
  FileManager.save_recording drv codec clip n w = (Ret p, w') ->
  p = recording_path w n
  /\ exists mp3_data,
       os.read_file w' p = Some mp3_data
       /\ forall s, BITRATE (cfg (world s)) = BITRATE (cfg w) ->
            AudioRecorder.convert_to_mp3 codec clip s = (Ret mp3_data, s).
Proof.
  rewrite save_recording_run.
  destruct (PyAudio_ok drv (log w)); [|done].
  destruct (fs w !! DEFAULT_OUTPUT_DIR (cfg w)) as [m|] eqn:Hd; [|done].
  intros [= <- <-]. split; [done|]. eexists. split.
  - rewrite read_file_insert. by rewrite decide_True.
  - intros s Hs. by rewrite convert_to_mp3_run, Hs.
Qed.

(** Saving succeeds whenever the device library initialises and the output
    directory exists. *)
Lemma save_recording_returns clip n w :
  PyAudio_ok drv (log w) = true ->
  is_Some (fs w !! DEFAULT_OUTPUT_DIR (cfg w)) ->
  exists w', FileManager.save_recording drv codec clip n w
             = (Ret (recording_path w n), w').
Proof.
  intros Hok [m Hm]. rewrite save_recording_run, Hok, Hm. eauto.
Qed.
End encoding.

Lemma convert_to_mp3_fallback_witness :
  AudioRecorder.convert_to_mp3 Demo.broken Demo.clip Demo.idle
    = (Ret Demo.clip, Demo.idle).
Proof. apply convert_to_mp3_fallback. reflexivity. Defined.

Lemma save_recording_roundtrip_witness :
  let out := FileManager.save_recording Demo.studio Demo.lame Demo.clip 7
               (Demo.with_files []) in
  out.1 = Ret ("recordings", "slide_007.mp3")
  /\ os.read_file out.2 ("recordings", "slide_007.mp3")
     = Some (Byte.x4d :: Demo.clip).
Proof.
  intros out.
  assert (out = (Ret ("recordings", "slide_007.mp3"), out.2)) as Hout
    by (vm_compute; reflexivity).
  destruct (save_recording_roundtrip Demo.studio Demo.lame Demo.clip 7
              (Demo.with_files []) _ _ Hout) as [_ [mp3 [Hread Hconv]]].
  split; [by rewrite Hout|].
  specialize (Hconv Demo.idle eq_refl).
  rewrite convert_to_mp3_run in Hconv. injection Hconv as <-.
  exact Hread.
Defined.

(** ** Reasoning about monadic code *)

Section commutes.
Context {S : Type} (T : S -> S).

Lemma commutes_ret {A} (a : A) : commutes T (mret a).
Proof. done. Qed.

Lemma commutes_raise {A} e : commutes T (raise e : M S A).
Proof. done. Qed.

Lemma commutes_bind {A B} (m : M S A) (k : A -> M S B) :
  commutes T m -> (forall a, commutes T (k a)) -> commutes T (m ≫= k).
Proof.
  intros Hm Hk s. unfold mbind, M_bind. rewrite Hm.
  destruct (m s) as [[a|e] s']; [apply Hk|done].
Qed.

Lemma commutes_try_except {A} (m : M S A) h :
  commutes T m -> (forall e, commutes T (h e)) -> commutes T (try_except m h).
Proof.
  intros Hm Hh s. unfold try_except. rewrite Hm.
  destruct (m s) as [[a|e] s']; [done|apply Hh].
Qed.

Lemma commutes_try_finally {A} (m : M S A) f :
  commutes T m -> commutes T f -> commutes T (try_finally m f).
Proof.
  intros Hm Hf s. unfold try_finally. rewrite Hm.
  destruct (m s) as [r s']. rewrite Hf. by destruct (f s') as [[[]|e] s''].
Qed.

Lemma commutes_gets {A} (f : S -> A) :
  (forall s, f (T s) = f s) -> commutes T (gets f).
Proof. intros Hf s. unfold gets. by rewrite Hf. Qed.

Lemma commutes_modify (f : S -> S) :
  (forall s, f (T s) = T (f s)) -> commutes T (modify f).
Proof. intros Hf s. unfold modify. by rewrite Hf. Qed.

Lemma commutes_from_option {A} e (o : option A) :
  commutes T (from_option e o).
Proof. by destruct o. Qed.
End commutes.

Section respects.
Context {S : Type} (R : S -> S -> Prop) `{!PreOrder R}.

Lemma respects_ret {A} (a : A) : respects R (mret a).
Proof. intros s. reflexivity. Qed.

Lemma respects_raise {A} e : respects R (raise e : M S A).
Proof. intros s. reflexivity. Qed.

Lemma respects_bind {A B} (m : M S A) (k : A -> M S B) :
  respects R m -> (forall a, respects R (k a)) -> respects R (m ≫= k).
Proof.
  intros Hm Hk s. unfold mbind, M_bind. specialize (Hm s).
  destruct (m s) as [[a|e] s']; [|done].
  etransitivity; [exact Hm|apply Hk].
Qed.

Lemma respects_try_except {A} (m : M S A) h :
  respects R m -> (forall e, respects R (h e)) -> respects R (try_except m h).
Proof.
  intros Hm Hh s. unfold try_except. specialize (Hm s).
  destruct (m s) as [[a|e] s']; [done|].
  etransitivity; [exact Hm|apply Hh].
Qed.

Lemma respects_try_finally {A} (m : M S A) f :
  respects R m -> respects R f -> respects R (try_finally m f).
Proof.
  intros Hm Hf s. unfold try_finally. specialize (Hm s).
  destruct (m s) as [r s']. specialize (Hf s').
  destruct (f s') as [[[]|e] s'']; by etransitivity.
Qed.

Lemma respects_gets {A} (f : S -> A) : respects R (gets f).
Proof. intros s. reflexivity. Qed.

Lemma respects_modify (f : S -> S) :
  (forall s, R s (f s)) -> respects R (modify f).
Proof. intros Hf s. apply Hf. Qed.

Lemma respects_from_option {A} e (o : option A) :
  respects R (from_option e o).
Proof. destruct o; intros s; reflexivity. Qed.
End respects.

(** Both judgements are proved by following the structure of the code. *)
Ltac step_code bind_rule except_rule finally_rule leaf :=
  repeat first
    [ leaf
    | bind_rule; [|intros ?]
    | except_rule; [|intros ?]
    | finally_rule
    | match goal with
      | |- context [match ?x with _ => _ end] => destruct x
      end ].

(** ** The capture engine *)

Create HintDb engine discriminated.

Section device_independence.
Context (drv : Driver) (d : option Z).
Let T := select_device d.

Lemma commutes_on_self f : commutes T (on_self f).
Proof. done. Qed.

Lemma commutes_self_field {A} (f : Recorder -> A) :
  commutes T (gets (fun s => f (self s))).
Proof. done. Qed.

Lemma commutes_extern c ok e : commutes T (on_world (extern c ok e)).
Proof. intros s. unfold on_world, extern. cbn. by destruct (ok _). Qed.

Lemma commutes_extern_val {A} c (reply : list Call -> option A) e :
  commutes T (on_world (extern_val c reply e)).
Proof. intros s. unfold on_world, extern_val. cbn. by destruct (reply _). Qed.

Lemma commutes_new_PyAudio : commutes T (AudioRecorder.new_PyAudio drv).
Proof.
  intros s. unfold AudioRecorder.new_PyAudio, on_world, extern.
  unfold mbind, M_bind, gets. cbn. by destruct (PyAudio_ok drv _).
Qed.

Lemma commutes_open a : commutes T (AudioRecorder.open drv a).
Proof.
  intros s. unfold AudioRecorder.open, on_world, extern.
  unfold mbind, M_bind. cbn. by destruct (open_ok drv _ _).
Qed.

Lemma commutes_setting {A} (f : Config -> A) :
  (forall c, f (set_DEFAULT_INPUT_DEVICE d c) = f c) ->
  commutes T (AudioRecorder.setting f).
Proof. intros Hf s. unfold AudioRecorder.setting, gets. cbn. by rewrite Hf. Qed.
End device_independence.

#[export] Hint Resolve commutes_ret commutes_raise commutes_from_option
  commutes_on_self commutes_self_field commutes_extern commutes_extern_val
  commutes_new_PyAudio commutes_open : engine.
#[export] Hint Extern 2 (commutes _ (AudioRecorder.setting _)) =>
  apply commutes_setting; reflexivity : engine.

Ltac commutes_code :=
  step_code ltac:(apply commutes_bind) ltac:(apply commutes_try_except)
    ltac:(apply commutes_try_finally) ltac:(solve [auto with engine]).

Section device_independence_methods.
Context (drv : Driver) (d : option Z).

Lemma commutes__initialize_pyaudio :
  commutes (select_device d) (AudioRecorder._initialize_pyaudio drv).
Proof.
  unfold AudioRecorder._initialize_pyaudio, AudioRecorder.terminate,
    AudioRecorder.is_active, AudioRecorder.stop_stream, AudioRecorder.close.
  commutes_code.
Qed.

Lemma commutes__cleanup_stream :
  commutes (select_device d) (AudioRecorder._cleanup_stream drv).
Proof.
  unfold AudioRecorder._cleanup_stream,
    AudioRecorder.is_active, AudioRecorder.stop_stream, AudioRecorder.close.
  commutes_code.
Qed.

Lemma commutes_cleanup :
  commutes (select_device d) (AudioRecorder.cleanup drv).
Proof.
  pose proof commutes__cleanup_stream.
  unfold AudioRecorder.cleanup, AudioRecorder.terminate.
  commutes_code.
Qed.

Lemma commutes_start_recording :
  commutes (select_device d) (AudioRecorder.start_recording drv).
Proof.
  pose proof commutes__initialize_pyaudio. pose proof commutes_cleanup.
  unfold AudioRecorder.start_recording, AudioRecorder.time.
  commutes_code.
Qed.
End device_independence_methods.

Global Instance logs_only_preorder P : PreOrder (logs_only P).
Proof.
  split.
  - intros s. exists []. by rewrite app_nil_r.
  - intros s1 s2 s3 [l1 [H1 F1]] [l2 [H2 F2]]. exists (l1 ++ l2). split.
    + by rewrite H2, H1, app_assoc.
    + by apply Forall_app.
Qed.

Section logged_calls.
Context (drv : Driver) (P : Call -> Prop).
Let R := logs_only P.

Lemma logs_on_self f : respects R (on_self f).
Proof. intros s. exists []. cbn. by rewrite app_nil_r. Qed.

Lemma logs_extern c ok e : P c -> respects R (on_world (extern c ok e)).
Proof.
  intros Hc s. exists [c]. unfold on_world, extern. cbn.
  destruct (ok _); cbn; auto.
Qed.

Lemma logs_extern_val {A} c (reply : list Call -> option A) e :
  P c -> respects R (on_world (extern_val c reply e)).
Proof.
  intros Hc s. exists [c]. unfold on_world, extern_val. cbn.
  destruct (reply _); cbn; auto.
Qed.

Lemma logs_new_PyAudio :
  P PyAudio_new -> respects R (AudioRecorder.new_PyAudio drv).
Proof.
  intros Hc s. exists [PyAudio_new].
  unfold AudioRecorder.new_PyAudio, on_world, extern, mbind, M_bind, gets.
  cbn. destruct (PyAudio_ok drv _); cbn; auto.
Qed.

Lemma logs_open a :
  P (PyAudio_open a) -> respects R (AudioRecorder.open drv a).
Proof.
  intros Hc s. exists [PyAudio_open a].
  unfold AudioRecorder.open, on_world, extern, mbind, M_bind.
  cbn. destruct (open_ok drv _ _); cbn; auto.
Qed.
End logged_calls.

#[export] Hint Resolve respects_ret respects_raise respects_from_option
  respects_gets logs_on_self : engine.
#[export] Hint Extern 2 (respects (logs_only default_device_only) _) =>
  first [ apply logs_extern | apply logs_extern_val | apply logs_new_PyAudio
        | apply logs_open ]; exact I || reflexivity : engine.

Ltac respects_code :=
  step_code
    ltac:(apply respects_bind; [apply _| |])
    ltac:(apply respects_try_except; [apply _| |])
    ltac:(apply respects_try_finally; [apply _| |])
    ltac:(solve [auto with typeclass_instances engine]).

Section default_device.
Context (drv : Driver).

Lemma logs__initialize_pyaudio :
  respects (logs_only default_device_only)
    (AudioRecorder._initialize_pyaudio drv).
Proof.
  unfold AudioRecorder._initialize_pyaudio, AudioRecorder.terminate,
    AudioRecorder.is_active, AudioRecorder.stop_stream, AudioRecorder.close.
  respects_code.
Qed.

Lemma logs__cleanup_stream : respects (logs_only default_device_only)
    (AudioRecorder._cleanup_stream drv).
Proof.
  unfold AudioRecorder._cleanup_stream,
    AudioRecorder.is_active, AudioRecorder.stop_stream, AudioRecorder.close.
  respects_code.
Qed.

Lemma logs_cleanup : respects (logs_only default_device_only)
    (AudioRecorder.cleanup drv).
Proof.
  pose proof logs__cleanup_stream.
  unfold AudioRecorder.cleanup, AudioRecorder.terminate.
  respects_code.
Qed.

Lemma logs_start_recording : respects (logs_only default_device_only)
    (AudioRecorder.start_recording drv).
Proof.
  pose proof logs__initialize_pyaudio. pose proof logs_cleanup.
  unfold AudioRecorder.start_recording, AudioRecorder.time,
    AudioRecorder.setting.
  respects_code.
Qed.
End default_device.

(** C10: [start_recording] does not depend on the selected input device.
    Run from a state in which [DEFAULT_INPUT_DEVICE] has been set to any
    value [d], it returns the same result, leaves the same engine state and
    file system, and makes the same external calls with the same arguments
    as from the state where it has not; and no stream-open call it makes
    names an input device. *)
Theorem start_recording_ignores_selected_device drv d s :
  AudioRecorder.start_recording drv (select_device d s)
    = (let '(r, s') := AudioRecorder.start_recording drv s in
       (r, select_device d s'))
  /\ exists calls,
       log (world (AudioRecorder.start_recording drv s).2)
         = log (world s) ++ calls
       /\ Forall default_device_only calls.
Proof.
  split.
  - apply commutes_start_recording.
  - apply logs_start_recording.
Qed.

Local Arguments wave.write : simpl never.
Local Arguments Qminus : simpl never.

(** Symbolic execution of straight-line engine code: unfold the monad and
    split on every answer of the driver. *)
Ltac exec :=
  unfold AudioRecorder.is_active, AudioRecorder.stop_stream,
    AudioRecorder.close, AudioRecorder.terminate, AudioRecorder.time,
    AudioRecorder.read, AudioRecorder.open, AudioRecorder.new_PyAudio,
    AudioRecorder.setting, try_except, try_finally, mbind, M_bind, mret,
    M_ret, gets, modify, raise, on_world, on_self, extern, extern_val,
    from_option in *;
  cbn in *;
  repeat (match goal with
          | |- context [match ?x with _ => _ end] =>
              lazymatch x with
              | context [match _ with _ => _ end] => fail
              | _ => destruct x eqn:?
              end
          end; cbn in *).

Section session.
Context (drv : Driver).
Implicit Types s : St.

Lemma _cleanup_stream_post s :
  exists s',
    AudioRecorder._cleanup_stream drv s = (Ret tt, s')
    /\ stream (self s') = None
    /\ frames (self s') = frames (self s)
    /\ recording (self s') = recording (self s).
Proof.
  destruct s as [[p st f r t c] w].
  unfold AudioRecorder._cleanup_stream. exec; eauto.
Qed.

Lemma stop_recording_recording s :
  recording (self s) = true ->
  exists out s',
    AudioRecorder.stop_recording drv s = (Ret out, s')
    /\ recording (self s') = false
    /\ stream (self s') = None
    /\ frames (self s') = frames (self s).
Proof.
  destruct s as [[p st f r t c] w]. cbn. intros ->.
  unfold AudioRecorder.stop_recording, AudioRecorder._cleanup_stream.
  exec; eauto 10.
Qed.

Lemma start_recording_started s s' :
  recording (self s) = false ->
  AudioRecorder.start_recording drv s = (Ret tt, s') ->
  frames (self s') = []
  /\ recording (self s') = true
  /\ stream (self s')
     = Some {| pa.opened_with := input_stream_args (cfg (world s)) |}.
Proof.
  destruct s as [[p st f r t c] w]. cbn. intros ->. revert s'.
  unfold AudioRecorder.start_recording, AudioRecorder._initialize_pyaudio,
    AudioRecorder.cleanup, AudioRecorder._cleanup_stream.
  exec; intros s' [= <-]; done.
Qed.

Lemma new_fresh w r w' :
  AudioRecorder.new drv w = (Ret r, w') ->
  frames r = [] /\ recording r = false /\ stream r = None.
Proof.
  rewrite new_run. destruct (PyAudio_ok drv (log w)); [|done].
  by intros [= <- <-].
Qed.
End session.

(** C8: [stop_recording] called while the recording flag is false returns
    the empty byte string and duration zero, and leaves the engine (frames,
    flag, stream, device handle) and the world exactly as they were. *)
Theorem stop_recording_not_recording drv s :
  recording (self s) = false ->
  AudioRecorder.stop_recording drv s = (Ret ([], 0%Q), s).
Proof.
  intros H. unfold AudioRecorder.stop_recording, mbind, M_bind, gets.
  by rewrite H.
Qed.

Lemma stop_recording_not_recording_witness :
  AudioRecorder.stop_recording Demo.studio Demo.idle
    = (Ret ([], 0%Q), Demo.idle).
Proof. apply stop_recording_not_recording. reflexivity. Defined.

(** C3, as the engine has it: a newly constructed engine has an empty frames
    buffer and a false recording flag; a [start_recording] that opens a
    session leaves the buffer empty and sets the flag; a [stop_recording]
    called while recording always returns, with the flag false and the
    stream released, and keeps the captured frames in the buffer. *)
Theorem session_buffer_lifecycle drv :
  (forall w r w',
     AudioRecorder.new drv w = (Ret r, w') ->
     frames r = [] /\ recording r = false)
  /\ (forall s s',
        recording (self s) = false ->
        AudioRecorder.start_recording drv s = (Ret tt, s') ->
        frames (self s') = [] /\ recording (self s') = true)
  /\ (forall s,
        recording (self s) = true ->
        exists out s',
          AudioRecorder.stop_recording drv s = (Ret out, s')
          /\ recording (self s') = false
          /\ stream (self s') = None
          /\ frames (self s') = frames (self s)).
Proof.
  split; [|split].
  - intros w r w' H. by destruct (new_fresh _ _ _ _ H) as (? & ? & _).
  - intros s s' Hrec H.
    by destruct (start_recording_started _ _ _ Hrec H) as (? & ? & _).
  - apply stop_recording_recording.
Qed.

Lemma session_buffer_lifecycle_witness :
  exists out s',
    AudioRecorder.stop_recording Demo.studio Demo.recorded = (Ret out, s')
    /\ recording (self s') = false
    /\ frames (self s') = [[Byte.x01; Byte.x02]].
Proof.
  destruct (session_buffer_lifecycle Demo.studio) as (_ & _ & Hstop).
  destruct (Hstop Demo.recorded) as (out & s' & Hrun & Hrec & _ & Hfr).
  - reflexivity.
  - exists out, s'. split; [exact Hrun|]. split; [exact Hrec|].
    rewrite Hfr. reflexivity.
Defined.

(** C3 as claimed fails: after a [stop_recording] that was called while
    recording and returned normally, the frames buffer still holds the
    chunk that was read. *)
Lemma stop_recording_clears_frames_counterexample :
  recording (self Demo.recorded) = true
  /\ (exists out,
        (AudioRecorder.stop_recording Demo.studio Demo.recorded).1 = Ret out)
  /\ ~ (frames (self (AudioRecorder.stop_recording Demo.studio
                        Demo.recorded).2) = []
        /\ recording (self (AudioRecorder.stop_recording Demo.studio
                              Demo.recorded).2) = false).
Proof.
  split; [reflexivity|]. split.
  - eexists. vm_compute. reflexivity.
  - intros [H _]. vm_compute in H. discriminate H.
Qed.

(** ** Construction of the application *)

Lemma SlideRecorder_init_bitrate drv output_dir audio_quality hooks w :
  BITRATE (cfg (SlideRecorder.__init__ drv output_dir audio_quality hooks w).2)
    = BITRATE (cfg (
        (if decide (audio_quality = "low") then
           modify (fun w => set_cfg (set_BITRATE "64k" (cfg w)) w)
         else if decide (audio_quality = "medium") then
           modify (fun w => set_cfg (set_BITRATE "96k" (cfg w)) w)
         else
           modify (fun w => set_cfg (set_BITRATE "128k" (cfg w)) w)) w).2).
Proof.
  unfold SlideRecorder.__init__, SlideRecorder.CLIInterface_init,
    FileManager.__init__, config.init, os.makedirs.
  unfold mbind at 1 2 3 4 5, M_bind at 1 2 3 4 5.
  destruct output_dir as [[|c d]|];
    destruct (decide (audio_quality = "low"));
    destruct (decide (audio_quality = "medium")).
  all: unfold mbind, M_bind, mret, M_ret, modify, gets, extern; cbn.
  all: repeat (match goal with
               | |- context [AudioRecorder.new ?d ?w] =>
                   rewrite (new_run d w); cbn
               | |- context [match ?x with _ => _ end] =>
                   lazymatch x with
                   | context [match _ with _ => _ end] => fail
                   | _ => destruct x eqn:?
                   end; cbn
               end).
  all: done.
Qed.

(** C9: constructing the application with audio quality [low], [medium] or
    [high] leaves the configured bitrate at [64k], [96k] or [128k], whatever
    else happens during construction; so does the command line for each
    value of its quality option, and [128k] is what it configures when the
    option is not given. *)
Theorem audio_quality_sets_bitrate drv output_dir hooks debug w :
  BITRATE (cfg (SlideRecorder.__init__ drv output_dir "low" hooks w).2) = "64k"
  /\ BITRATE (cfg (SlideRecorder.__init__ drv output_dir "medium" hooks w).2)
     = "96k"
  /\ BITRATE (cfg (SlideRecorder.__init__ drv output_dir "high" hooks w).2)
     = "128k"
  /\ BITRATE (cfg (SlideRecorder.run drv output_dir (Some "low") debug w).2)
     = "64k"
  /\ BITRATE (cfg (SlideRecorder.run drv output_dir (Some "medium") debug w).2)
     = "96k"
  /\ BITRATE (cfg (SlideRecorder.run drv output_dir (Some "high") debug w).2)
     = "128k"
  /\ BITRATE (cfg (SlideRecorder.run drv output_dir None debug w).2) = "128k".
Proof.
  unfold SlideRecorder.run. rewrite !SlideRecorder_init_bitrate.
  repeat split; reflexivity.
Qed.

(** ** Listing and numbering in the presence of backups *)

(** C2 fails on the code: once slide 5 has been saved and backed up, the
    listing holds 5 twice; once the recording has been deleted, the listing
    still holds 5 although no recording of slide 5 exists. *)
Theorem get_recording_list_counts_backups :
  (FileManager.get_recording_list Demo.backed_up).1 = Ret [5; 5]
  /\ (FileManager.get_recording_list Demo.backup_left).1 = Ret [5]
  /\ (FileManager.recording_exists 5 Demo.backup_left).1 = Ret false.
Proof. repeat split; vm_compute; reflexivity. Qed.

(** C1 fails on the code: with the backup of slide 5 as the only file left,
    no recording exists for any slide number, yet the next slide number is
    6 and not 1. *)
Theorem get_next_slide_number_counts_backups :
  (FileManager.get_next_slide_number Demo.backup_left).1 = Ret 6
  /\ forall n, (FileManager.recording_exists n Demo.backup_left).1 = Ret false.
Proof.
  split; [vm_compute; reflexivity|]. intros n.
  unfold FileManager.recording_exists, config.get_recording_path, os.exists_.
  unfold mbind, M_bind, mret, M_ret, gets. cbn [fst].
  f_equal. apply bool_decide_eq_false_2. intros [data Hdata].
  change (DEFAULT_OUTPUT_DIR (cfg Demo.backup_left)) with "recordings" in Hdata.
  rewrite read_file_dir_state in Hdata.
  assert (os.dir_state Demo.backup_left "recordings"
          = {[FileManager.backup_name 5 := Byte.x4d :: Demo.clip]}) as Hdir
    by (vm_compute; reflexivity).
  rewrite Hdir in Hdata.
  apply lookup_singleton_Some in Hdata as [Hname _].
  by apply backup_name_not_recording in Hname.
Qed.

(** ** Listing and numbering when the directory holds recordings only *)

Section only_recordings.
Import Py.
Implicit Types (w : World) (n : Z).

Lemma for_each_ret {S A B} (f : A -> M S B) (g : A -> B) (l : list A) s :
  (forall x, x ∈ l -> f x s = (Ret (g x), s)) ->
  for_each f l s = (Ret (g <$> l), s).
Proof.
  induction l as [|x l IH]; intros Hf; [done|].
  cbn [for_each]. unfold mbind, M_bind.
  rewrite Hf by left.
  rewrite IH by (intros y Hy; apply Hf; by right). done.
Qed.

Lemma filter_all {A} (P : A -> Prop) `{!forall x, Decision (P x)} (l : list A) :
  Forall P l -> filter P l = l.
Proof.
  induction 1 as [|x l Hx Hl IH]; [done|].
  rewrite filter_cons_True by done. by rewrite IH.
Qed.

Lemma max_list_bound x l :
  max_list x l ∈ x :: l /\ forall y, y ∈ x :: l -> y <= max_list x l.
Proof.
  revert x. induction l as [|z l IH]; intros x; cbn [max_list].
  - split; [left|]. intros y ->%list_elem_of_singleton. lia.
  - destruct (IH (Z.max x z)) as [Hin Hub]. split.
    + apply elem_of_cons in Hin as [->|Hin].
      * destruct (Z.max_spec x z) as [[_ ->]|[_ ->]]; [right; left|left].
      * right; by right.
    + intros y [->|[->|Hy]%elem_of_cons]%elem_of_cons.
      * etransitivity; [apply Z.le_max_l|]. apply Hub. left.
      * etransitivity; [apply Z.le_max_r|]. apply Hub. left.
      * apply Hub. by right.
Qed.

Lemma Sorted_le_NoDup_lt (l : list Z) :
  Sorted Z.le l -> NoDup l -> Sorted Z.lt l.
Proof.
  intros Hs%Sorted_StronglySorted Hn; [|intros ???; lia].
  apply StronglySorted_Sorted.
  induction Hs as [|x l Hs IH Hx]; [constructor|].
  apply NoDup_cons in Hn as [Hx' Hn]. constructor; [auto|].
  apply Forall_forall. intros y Hy.
  rewrite Forall_forall in Hx. specialize (Hx y Hy).
  assert (x <> y) by (intros ->; done). lia.
Qed.

Lemma slide_number_of_parsed d name w :
  config.slide_number_of (d, name) w =
    match split "_" (stem name) !! 1%nat with
    | Some field =>
        match int field with
        | Some n => (Ret n, w)
        | None => (Raise ValueError, w)
        end
    | None => (Raise IndexError, w)
    end.
Proof.
  unfold config.slide_number_of, mbind, M_bind, from_option. cbn [snd].
  destruct (split "_" (stem name) !! 1%nat) as [field|]; [|done].
  cbn. by destruct (int field).
Qed.

Lemma parsed_number_recording n :
  parsed_number (config.FILENAME_PATTERN_format n) = Some n.
Proof.
  pose proof (slide_number_of_recording "" n
    {| cfg := config.initial; fs := ∅; log := [] |}) as H.
  rewrite slide_number_of_parsed in H. unfold parsed_number.
  destruct (split "_" _ !! 1%nat) as [field|]; [|done].
  cbn. destruct (int field); congruence.
Qed.

Lemma slide_number_of_Some d name n w :
  parsed_number name = Some n ->
  config.slide_number_of (d, name) w = (Ret n, w).
Proof.
  unfold parsed_number. rewrite slide_number_of_parsed.
  destruct (split "_" _ !! 1%nat) as [field|]; [|done].
  cbn. by intros ->.
Qed.

Lemma glob_slides_only_recordings w :
  only_recordings w ->
  os.glob_slides (DEFAULT_OUTPUT_DIR (cfg w)) w =
    (Ret ((fun name => (DEFAULT_OUTPUT_DIR (cfg w), name)) <$>
            (map_to_list (os.dir_state w (DEFAULT_OUTPUT_DIR (cfg w)))).*1),
     w).
Proof.
  intros Hw. unfold os.glob_slides, gets. rewrite filter_all; [done|].
  apply Forall_forall. intros name Hname.
  destruct (Hw name) as [n ->]; [|apply glob_recording].
  apply elem_of_dom. apply list_elem_of_fmap in Hname as [[k v] [-> Hkv]].
  apply elem_of_map_to_list in Hkv. by exists v.
Qed.

Lemma numbers_only_recordings w :
  only_recordings w ->
  let d := DEFAULT_OUTPUT_DIR (cfg w) in
  let numbers :=
    (fun name => default 0 (parsed_number name)) <$>
      (map_to_list (os.dir_state w d)).*1 in
  for_each config.slide_number_of
    ((fun name => (d, name)) <$> (map_to_list (os.dir_state w d)).*1) w
    = (Ret numbers, w)
  /\ NoDup numbers
  /\ forall n, n ∈ numbers <-> is_Some (os.read_file w (recording_path w n)).
Proof.
  intros Hw d numbers.
  assert (forall name, name ∈ (map_to_list (os.dir_state w d)).*1 ->
            exists n, name = config.FILENAME_PATTERN_format n) as Hnames.
  { intros name Hname. apply Hw, elem_of_dom.
    apply list_elem_of_fmap in Hname as [[k v] [-> Hkv]].
    apply elem_of_map_to_list in Hkv. by exists v. }
  split; [|split].
  - rewrite (for_each_ret _ (fun p => default 0 (parsed_number p.2))).
    + unfold numbers. by rewrite <- list_fmap_compose.
    + intros [d' name] [name' [[= -> ->] Hin]]%list_elem_of_fmap.
      destruct (Hnames _ Hin) as [n ->]. cbn [snd].
      rewrite parsed_number_recording. apply slide_number_of_recording.
  - apply NoDup_fmap_2_strong; [|apply NoDup_fst_map_to_list].
    intros x y Hx Hy Hxy.
    destruct (Hnames _ Hx) as [n ->]. destruct (Hnames _ Hy) as [k ->].
    rewrite !parsed_number_recording in Hxy. cbn in Hxy. by subst.
  - intros n. unfold recording_path. rewrite read_file_dir_state.
    fold d. rewrite <- elem_of_dom. split.
    + intros [name [-> Hin]]%list_elem_of_fmap.
      destruct (Hnames _ Hin) as [k ->].
      rewrite parsed_number_recording. cbn.
      apply list_elem_of_fmap in Hin as [[k' v] [Hk Hkv]].
      apply elem_of_map_to_list in Hkv. apply elem_of_dom.
      cbn in Hk. subst k'. by exists v.
    + intros [v Hv]%elem_of_dom. apply list_elem_of_fmap.
      exists (config.FILENAME_PATTERN_format n).
      rewrite parsed_number_recording. split; [done|].
      apply list_elem_of_fmap. exists (config.FILENAME_PATTERN_format n, v).
      split; [done|]. by apply elem_of_map_to_list.
Qed.

(** On a directory that holds recordings only, the listing is the strictly
    ascending list of the slide numbers that have a recording. *)
Lemma get_recording_list_only_recordings w :
  only_recordings w ->
  exists l,
    FileManager.get_recording_list w = (Ret l, w)
    /\ Sorted Z.lt l
    /\ forall n, n ∈ l <-> is_Some (os.read_file w (recording_path w n)).
Proof.
  intros Hw. destruct (numbers_only_recordings w Hw) as (Hrun & Hnd & Hin).
  eexists. split; [|split].
  - unfold FileManager.get_recording_list.
    unfold mbind at 1, M_bind at 1, gets at 1.
    unfold mbind at 1, M_bind at 1. rewrite glob_slides_only_recordings by done.
    unfold mbind at 1, M_bind at 1. rewrite Hrun. reflexivity.
  - apply Sorted_le_NoDup_lt.
    + apply Sorted_merge_sort. apply _.
    + unfold sorted. by rewrite merge_sort_Permutation.
  - intros n. unfold sorted. rewrite merge_sort_Permutation. apply Hin.
Qed.

(** On such a directory the next slide number is 1 when there is no
    recording, and otherwise one more than the largest slide number that
    has a recording. *)
Lemma get_next_slide_number_only_recordings w :
  only_recordings w ->
  exists r,
    FileManager.get_next_slide_number w = (Ret r, w)
    /\ ((forall n, os.read_file w (recording_path w n) = None) -> r = 1)
    /\ ((exists n, is_Some (os.read_file w (recording_path w n))) ->
        is_Some (os.read_file w (recording_path w (r - 1)))
        /\ forall n, is_Some (os.read_file w (recording_path w n)) ->
                     n <= r - 1).
Proof.
  intros Hw. destruct (numbers_only_recordings w Hw) as (Hrun & _ & Hin).
  unfold FileManager.get_next_slide_number, config.get_next_slide_number.
  unfold mbind at 1, M_bind at 1, gets at 1.
  unfold mbind at 1, M_bind at 1. rewrite glob_slides_only_recordings by done.
  cbv zeta in Hrun, Hin.
  destruct ((map_to_list (os.dir_state w (DEFAULT_OUTPUT_DIR (cfg w)))).*1)
    as [|name names] eqn:Hnames.
  - exists 1. split; [done|]. split; [done|].
    intros [n Hn%Hin]. by apply elem_of_nil in Hn.
  - cbn [fmap list_fmap] in *.
    unfold mbind at 1, M_bind at 1. rewrite Hrun.
    cbn [max from_option]. unfold mbind, M_bind, mret, M_ret.
    eexists. split; [reflexivity|].
    match goal with
    | |- context [max_list ?x ?l] =>
        destruct (max_list_bound x l) as [Hmax Hub]; set (m := max_list x l) in *
    end.
    split.
    + intros Hnone. apply Hin in Hmax as [v Hv]. by rewrite Hnone in Hv.
    + intros _. replace (m + 1 - 1) with m by lia. split.
      * by apply Hin.
      * intros n Hn. apply Hub. by apply Hin.
Qed.
End only_recordings.

(** ** Worked examples *)

Example int_leading_zeros : Py.int "007" = Some 7.
Proof. reflexivity. Qed.

Example int_signed_spaced : Py.int " -12 " = Some (-12).
Proof. reflexivity. Qed.

Example int_not_a_number : Py.int "intro" = None.
Proof. reflexivity. Qed.

Example format_pads : Py.format_03d 5 = "005".
Proof. reflexivity. Qed.

Example format_wide : Py.format_03d 1234 = "1234".
Proof. reflexivity. Qed.

Example format_negative : Py.format_03d (-5) = "-05".
Proof. reflexivity. Qed.

Example split_backup_stem :
  Py.split "_" (Py.stem "slide_001_backup.mp3") = ["slide"; "001"; "backup"].
Proof. reflexivity. Qed.

Example sorted_keeps_duplicates : Py.sorted [3; 1; 2; 1] = [1; 1; 2; 3].
Proof. vm_compute. reflexivity. Qed.

(** A name that matches the pattern but carries no number makes both
    listing and numbering raise. *)
Example foreign_name_raises :
  (FileManager.get_recording_list
     (Demo.with_files [("slide_intro.mp3", Demo.clip)])).1 = Raise ValueError
  /\ (FileManager.get_next_slide_number
        (Demo.with_files [("slide_intro.mp3", Demo.clip)])).1
     = Raise ValueError.
Proof. split; vm_compute; reflexivity. Qed.

(** The envelope of a two-byte mono session at 44100 Hz: 44 header bytes,
    then the samples. *)
Example wave_header_length :
  length <$> wave.write 1 2 44100 [Byte.x01; Byte.x02] = Some 46%nat.
Proof. reflexivity. Qed.

(** Save, back up, save a retake, back up again: the one backup file holds
    the retake, and the directory holds the same two names as after the
    first backup. *)
Example backup_after_retake :
  let w1 := (FileManager.save_recording Demo.studio Demo.lame Demo.clip 5
               (Demo.with_files [])).2 in
  let w2 := (FileManager.backup_recording 5 w1).2 in
  let w3 := (FileManager.save_recording Demo.studio Demo.lame Demo.retake 5
               w2).2 in
  let w4 := (FileManager.backup_recording 5 w3).2 in
  os.read_file w2 (backup_path w2 5) = Some (Byte.x4d :: Demo.clip)
  /\ os.read_file w4 (backup_path w4 5) = Some (Byte.x4d :: Demo.retake)
  /\ dom (os.dir_state w4 "recordings") = dom (os.dir_state w2 "recordings")
  /\ size (os.dir_state w4 "recordings") = 2%nat.
Proof. repeat split; vm_compute; reflexivity. Qed.

(** Selecting a device that has input channels does change the setting
    that [start_recording] ignores. *)
Example set_input_device_selects :
  let s := Demo.after (AudioRecorder.__init__ Demo.studio) Demo.idle in
  (AudioRecorder.set_input_device Demo.studio 2 s).1 = Ret true
  /\ DEFAULT_INPUT_DEVICE
       (cfg (world (AudioRecorder.set_input_device Demo.studio 2 s).2))
     = Some 2
  /\ (AudioRecorder.set_input_device Demo.studio 1 s).1 = Ret false
  /\ DEFAULT_INPUT_DEVICE
       (cfg (world (AudioRecorder.set_input_device Demo.studio 1 s).2))
     = None.
Proof. repeat split; vm_compute; reflexivity. Qed.

(** * Further properties of the storage manager *)

Section storage_more.
Context (drv : Driver) (codec : Codec).
Implicit Types (w : World) (n m : Z).

(** X1: the file name built for slide [n] matches the listing pattern and
    parses back to [n], for every integer; the name of the backup of slide
    [n] matches the pattern and parses to [n] as well. *)
Theorem slide_name_round_trip d n w :
  (config.get_recording_path n w).1
    = Ret (DEFAULT_OUTPUT_DIR (cfg w), config.FILENAME_PATTERN_format n)
  /\ os.matches_slide_glob (config.FILENAME_PATTERN_format n) = true
  /\ config.slide_number_of (d, config.FILENAME_PATTERN_format n) w = (Ret n, w)
  /\ os.matches_slide_glob (FileManager.backup_name n) = true
  /\ config.slide_number_of (d, FileManager.backup_name n) w = (Ret n, w).
Proof.
  split; [done|]. split; [apply glob_recording|].
  split; [apply slide_number_of_recording|].
  split; [apply glob_backup|apply slide_number_of_backup].
Qed.

(** X2: two slide numbers never share a recording path or a backup path,
    and no backup path is the recording path of any slide. *)
Theorem paths_never_collide w n m :
  ((config.get_recording_path n w).1 = (config.get_recording_path m w).1 ->
   n = m)
  /\ (backup_path w n = backup_path w m -> n = m)
  /\ Ret (backup_path w n) <> (config.get_recording_path m w).1.
Proof.
  split; [|split].
  - change ((config.get_recording_path n w).1) with (Ret (recording_path w n)).
    change ((config.get_recording_path m w).1) with (Ret (recording_path w m)).
    intros H. assert (recording_path w n = recording_path w m) as H'
      by congruence.
    apply (f_equal snd) in H'. by apply FILENAME_PATTERN_format_inj.
  - intros H%(f_equal snd). by apply backup_name_inj.
  - change ((config.get_recording_path m w).1) with (Ret (recording_path w m)).
    intros H. assert (backup_path w n = recording_path w m) as H'
      by congruence.
    apply (f_equal snd) in H'. by apply backup_name_not_recording in H'.
Qed.

(** X3: a [save_recording] that returns has written one file: the settings
    are as before and every path other than that of slide [n] holds what it
    held. *)
Theorem save_recording_writes_one_file clip n w p w' :
  FileManager.save_recording drv codec clip n w = (Ret p, w') ->
  cfg w' = cfg w
  /\ forall q, q <> recording_path w n -> os.read_file w' q = os.read_file w q.
Proof.
  rewrite save_recording_run.
  destruct (PyAudio_ok drv (log w)); [|done].
  destruct (fs w !! DEFAULT_OUTPUT_DIR (cfg w)) as [dir|] eqn:Hd; [|done].
  intros [= <- <-]. split; [done|]. intros q Hq.
  rewrite read_file_insert. rewrite decide_False by done.
  destruct (decide (q.1 = DEFAULT_OUTPUT_DIR (cfg w))) as [Hq1|]; [|done].
  unfold os.read_file. by rewrite Hq1, Hd.
Qed.

End storage_more.

Lemma save_recording_writes_one_file_witness :
  let out := FileManager.save_recording Demo.studio Demo.lame Demo.retake 7
               Demo.backed_up in
  os.read_file out.2 ("recordings", "slide_005.mp3")
    = Some (Byte.x4d :: Demo.clip).
Proof.
  intros out.
  assert (out = (Ret ("recordings", "slide_007.mp3"), out.2)) as Hout
    by (vm_compute; reflexivity).
  destruct (save_recording_writes_one_file Demo.studio Demo.lame Demo.retake 7
              Demo.backed_up _ _ Hout) as [_ Hframe].
  rewrite Hframe; [vm_compute; reflexivity|].
  intros H. vm_compute in H. discriminate H.
Defined.


Section listing_more.
Implicit Types (w : World) (n : Z).

Lemma for_each_slide_number_of files w numbers w' :
  for_each config.slide_number_of files w = (Ret numbers, w') ->
  w' = w
  /\ Forall2 (fun f k => parsed_number f.2 = Some k) files numbers.
Proof.
  revert numbers. induction files as [|[d name] files IH]; intros numbers.
  - intros [= <- <-]. by split.
  - cbn [for_each]. unfold mbind at 1, M_bind at 1.
    rewrite slide_number_of_parsed. unfold parsed_number in *. cbn [snd] in *.
    destruct (Py.split "_" (Py.stem name) !! 1%nat) as [field|] eqn:Hf;
      [|done].
    destruct (Py.int field) as [k|] eqn:Hk; [|done].
    unfold mbind, M_bind, mret, M_ret.
    destruct (for_each config.slide_number_of files w) as [[ks|e] w1] eqn:Hrest;
      [|done].
    intros [= <- <-]. destruct (IH ks eq_refl) as [-> Hall].
    split; [done|]. constructor; [|done]. cbn [snd]. by rewrite Hf.
Qed.

(** Every recording of the output directory is among the matched files. *)
Lemma recording_is_matched w files w1 n :
  os.glob_slides (DEFAULT_OUTPUT_DIR (cfg w)) w = (Ret files, w1) ->
  is_Some (os.read_file w (recording_path w n)) ->
  recording_path w n ∈ files.
Proof.
  unfold os.glob_slides, gets. intros [= <- <-] [data Hdata].
  unfold recording_path in *. rewrite read_file_dir_state in Hdata.
  apply list_elem_of_fmap. exists (config.FILENAME_PATTERN_format n).
  split; [done|]. apply list_elem_of_filter. split; [apply glob_recording|].
  apply list_elem_of_fmap. exists (config.FILENAME_PATTERN_format n, data).
  split; [done|]. by apply elem_of_map_to_list.
Qed.

Lemma matched_recording_number files numbers w n :
  Forall2 (fun f k => parsed_number f.2 = Some k) files numbers ->
  recording_path w n ∈ files -> n ∈ numbers.
Proof.
  induction 1 as [|f k files numbers Hf _ IH]; [by intros ?%elem_of_nil|].
  intros [<-|Hin]%elem_of_cons.
  - cbn in Hf. rewrite parsed_number_recording in Hf.
    injection Hf as ->. left.
  - right. auto.
Qed.

(** X5: whenever the listing returns, it changes nothing, it is in
    ascending order, and it holds the number of every slide that has a
    recording (also when backups are present). *)
Theorem get_recording_list_misses_no_recording w l w' :
  FileManager.get_recording_list w = (Ret l, w') ->
  w' = w
  /\ Sorted Z.le l
  /\ forall n, is_Some (os.read_file w (recording_path w n)) -> n ∈ l.
Proof.
  unfold FileManager.get_recording_list.
  unfold mbind at 1, M_bind at 1, gets at 1.
  unfold mbind at 1, M_bind at 1.
  destruct (os.glob_slides (DEFAULT_OUTPUT_DIR (cfg w)) w) as [[files|e] w1]
    eqn:Hglob; [|done].
  pose proof (fun n => recording_is_matched w _ _ n Hglob) as Hmatched.
  assert (w1 = w) as -> by (unfold os.glob_slides, gets in Hglob; congruence).
  unfold mbind, M_bind, mret, M_ret.
  destruct (for_each config.slide_number_of files w) as [[numbers|e] w1]
    eqn:Hnum; [|done].
  intros [= <- <-]. apply for_each_slide_number_of in Hnum as [-> Hall].
  split; [done|]. split.
  - apply Sorted_merge_sort. apply _.
  - intros n Hn. unfold Py.sorted. rewrite merge_sort_Permutation.
    eapply matched_recording_number; [done|]. by apply Hmatched.
Qed.

(** X7: whenever the numbering returns [r], it changes nothing and [r] is
    above the number of every slide that has a recording; in particular no
    recording exists at the path of slide [r]. *)
Theorem get_next_slide_number_is_free w r w' :
  FileManager.get_next_slide_number w = (Ret r, w') ->
  w' = w
  /\ (forall n, is_Some (os.read_file w (recording_path w n)) -> n < r)
  /\ os.read_file w (recording_path w r) = None.
Proof.
  intros Hrun.
  assert (w' = w /\
          forall n, is_Some (os.read_file w (recording_path w n)) -> n < r)
    as [-> Hlt].
  { revert Hrun.
    unfold FileManager.get_next_slide_number, config.get_next_slide_number.
    unfold mbind at 1, M_bind at 1, gets at 1.
    unfold mbind at 1, M_bind at 1.
    destruct (os.glob_slides (DEFAULT_OUTPUT_DIR (cfg w)) w) as [[files|e] w1]
      eqn:Hglob; [|done].
    pose proof (fun n => recording_is_matched w _ _ n Hglob) as Hmatched.
    assert (w1 = w) as -> by (unfold os.glob_slides, gets in Hglob; congruence).
    destruct files as [|f files].
    - intros [= <- <-]. split; [done|].
      intros n Hn. apply Hmatched in Hn. by apply elem_of_nil in Hn.
    - unfold mbind at 1, M_bind at 1.
      destruct (for_each config.slide_number_of (f :: files) w)
        as [[numbers|e] w1] eqn:Hnum; [|done].
      apply for_each_slide_number_of in Hnum as [-> Hall].
      destruct numbers as [|k numbers]; [by inversion Hall|].
      cbn [Py.max from_option]. unfold mbind, M_bind, mret, M_ret.
      intros [= <- <-]. split; [done|]. intros n Hn. apply Hmatched in Hn.
      eapply matched_recording_number in Hn; [|done].
      destruct (max_list_bound k numbers) as [_ Hub].
      specialize (Hub n Hn). lia. }
  split; [done|]. split; [done|].
  destruct (os.read_file w (recording_path w r)) as [data|] eqn:Hr; [|done].
  assert (r < r) by (apply Hlt; by rewrite Hr). lia.
Qed.
End listing_more.

Lemma get_recording_list_misses_no_recording_witness :
  5 ∈ [5; 5].
Proof.
  assert (FileManager.get_recording_list Demo.backed_up
          = (Ret [5; 5], Demo.backed_up)) as Hrun by (vm_compute; reflexivity).
  destruct (get_recording_list_misses_no_recording _ _ _ Hrun) as (_ & _ & Hin).
  apply Hin. vm_compute. by eexists.
Defined.

Lemma get_next_slide_number_is_free_witness :
  os.read_file Demo.backed_up (recording_path Demo.backed_up 6) = None.
Proof.
  assert (FileManager.get_next_slide_number Demo.backed_up
          = (Ret 6, Demo.backed_up)) as Hrun by (vm_compute; reflexivity).
  by destruct (get_next_slide_number_is_free _ _ _ Hrun) as (_ & _ & H).
Defined.

Section listing_exact.
Context (drv : Driver) (codec : Codec).
Implicit Types (w : World) (n : Z).

(** X6: on an output directory that holds recordings only, the listing
    returns, changes nothing, and is the strictly ascending list of exactly
    the slide numbers that have a recording. *)
Theorem get_recording_list_exact_without_backups w :
  only_recordings w ->
  exists l,
    FileManager.get_recording_list w = (Ret l, w)
    /\ Sorted Z.lt l
    /\ forall n, n ∈ l <-> is_Some (os.read_file w (recording_path w n)).
Proof. apply get_recording_list_only_recordings. Qed.

(** X8: on an output directory that holds recordings only, the next slide
    number is 1 when no recording exists, and otherwise one more than the
    largest slide number that has a recording. *)
Theorem get_next_slide_number_without_backups w :
  only_recordings w ->
  exists r,
    FileManager.get_next_slide_number w = (Ret r, w)
    /\ ((forall n, os.read_file w (recording_path w n) = None) -> r = 1)
    /\ ((exists n, is_Some (os.read_file w (recording_path w n))) ->
        is_Some (os.read_file w (recording_path w (r - 1)))
        /\ forall n, is_Some (os.read_file w (recording_path w n)) ->
                     n <= r - 1).
Proof. apply get_next_slide_number_only_recordings. Qed.

Lemma StronglySorted_lt_NoDup (l : list Z) : StronglySorted Z.lt l -> NoDup l.
Proof.
  induction 1 as [|x l _ IH Hx]; constructor; [|done].
  intros Hin. rewrite Forall_forall in Hx. specialize (Hx x Hin). lia.
Qed.

Lemma only_recordings_save clip n w p w' :
  only_recordings w ->
  FileManager.save_recording drv codec clip n w = (Ret p, w') ->
  only_recordings w'
  /\ forall k, is_Some (os.read_file w' (recording_path w' k))
               <-> k = n \/ is_Some (os.read_file w (recording_path w k)).
Proof.
  intros Hw. rewrite save_recording_run.
  destruct (PyAudio_ok drv (log w)); [|done].
  destruct (fs w !! DEFAULT_OUTPUT_DIR (cfg w)) as [dir|] eqn:Hd; [|done].
  intros [= <- <-].
  assert (os.dir_state w (DEFAULT_OUTPUT_DIR (cfg w)) = dir) as Hdir
    by (unfold os.dir_state; by rewrite Hd).
  split.
  - intros name. unfold os.dir_state. cbn [fs set_fs cfg set_log].
    rewrite lookup_insert_eq. cbn. rewrite dom_insert_L.
    intros [->%elem_of_singleton|Hname]%elem_of_union; [by exists n|].
    apply Hw. by rewrite Hdir.
  - intros k. unfold recording_path. cbn [cfg set_fs set_log].
    rewrite read_file_insert.
    destruct (decide (_ = _)) as [Heq|Hne].
    + apply (f_equal snd) in Heq. cbn [snd] in Heq.
      apply FILENAME_PATTERN_format_inj in Heq as ->.
      split; [by left|by eexists].
    + cbn [fst snd]. rewrite decide_True by done.
      rewrite read_file_dir_state, Hdir. split; [by right|].
      intros [->|?]; [|done]. by destruct Hne.
Qed.

(** X9: recording the next slide appends it to the listing.  On an output
    directory that holds recordings only, when the next slide number is [r]
    and saving a clip as slide [r] returns, the listing after the save is
    the listing before it followed by [r]. *)
Theorem record_next_slide_appends clip w r p w' :
  only_recordings w ->
  FileManager.get_next_slide_number w = (Ret r, w) ->
  FileManager.save_recording drv codec clip r w = (Ret p, w') ->
  exists l,
    FileManager.get_recording_list w = (Ret l, w)
    /\ FileManager.get_recording_list w' = (Ret (l ++ [r]), w').
Proof.
  intros Hw Hnext Hsave.
  destruct (get_recording_list_only_recordings w Hw) as (l & Hl & Hsorted & Hin).
  destruct (only_recordings_save _ _ _ _ _ Hw Hsave) as [Hw' Hex].
  destruct (get_recording_list_only_recordings w' Hw')
    as (l' & Hl' & Hsorted' & Hin').
  destruct (get_next_slide_number_only_recordings w Hw)
    as (r0 & Hr0 & _ & Hmax).
  assert (r0 = r) as -> by congruence.
  exists l. split; [done|]. rewrite Hl'. do 2 f_equal.
  assert (forall n, n ∈ l -> n < r) as Hlt.
  { intros n Hn%Hin. destruct Hmax as [_ Hub]; [by exists n|].
    specialize (Hub n Hn). lia. }
  assert (StronglySorted Z.lt (l ++ [r])) as Hsnoc.
  { apply StronglySorted_app_2.
    - intros x1 x2 Hx1 ->%list_elem_of_singleton. auto.
    - apply Sorted_StronglySorted; [|done]. intros ???; lia.
    - repeat constructor. }
  apply Sorted_StronglySorted in Hsorted'; [|intros ???; lia].
  apply (StronglySorted_unique_strong Z.lt); [intros; lia|done..|].
  apply NoDup_Permutation; [by apply StronglySorted_lt_NoDup..|].
  intros n. rewrite Hin', Hex, elem_of_app, list_elem_of_singleton, Hin.
  tauto.
Qed.

(** X10: re-recording a slide after backing it up keeps the previous take.
    When slide [n] has a recording, [backup_recording n] followed by a
    [save_recording] of a new clip as slide [n] that returns leaves the
    previous bytes at the backup path and the newly encoded bytes at the
    recording path. *)
Theorem rerecord_keeps_previous_take clip n w old p w' :
  os.read_file w (recording_path w n) = Some old ->
  FileManager.save_recording drv codec clip n
    (FileManager.backup_recording n w).2 = (Ret p, w') ->
  os.read_file w' (backup_path w n) = Some old
  /\ os.read_file w' (recording_path w n)
     = Some (default clip (mp3_of codec (BITRATE (cfg w)) clip)).
Proof.
  intros Hold. rewrite backup_recording_run, Hold. cbn [snd].
  rewrite save_recording_run. cbn [log cfg fs set_fs].
  destruct (PyAudio_ok drv (log w)); [|done].
  rewrite lookup_insert_eq. intros [= <- <-]. split.
  - rewrite read_file_insert. rewrite decide_False.
    + cbn [fst snd backup_path]. rewrite decide_True by done.
      apply lookup_insert_eq.
    + intros H%(f_equal snd). by apply backup_name_not_recording in H.
  - rewrite read_file_insert. by rewrite decide_True.
Qed.


(** X12: [recording_exists] follows saving and deleting: it returns [True]
    for slide [n] after a [save_recording] of slide [n] that returned, and
    [False] after [delete_recording n]. *)
Theorem recording_exists_after_save_and_delete clip n w :
  (forall p w', FileManager.save_recording drv codec clip n w = (Ret p, w') ->
                FileManager.recording_exists n w' = (Ret true, w'))
  /\ (FileManager.recording_exists n (FileManager.delete_recording n w).2).1
     = Ret false.
Proof.
  assert (forall w0, FileManager.recording_exists n w0
            = (Ret (bool_decide (is_Some (os.read_file w0 (recording_path w0 n)))),
               w0)) as Hex by done.
  split.
  - intros p w'. rewrite save_recording_run.
    destruct (PyAudio_ok drv (log w)); [|done].
    destruct (fs w !! DEFAULT_OUTPUT_DIR (cfg w)) as [dir|]; [|done].
    intros [= <- <-]. rewrite Hex. unfold recording_path. cbn [cfg set_fs set_log].
    rewrite read_file_insert, decide_True by done.
    by rewrite bool_decide_eq_true_2.
  - rewrite Hex. cbn [fst]. f_equal. apply bool_decide_eq_false_2.
    rewrite delete_recording_run.
    destruct (os.read_file w (recording_path w n)) as [data|] eqn:Hn; cbn [snd].
    + unfold recording_path in *. cbn [cfg set_fs].
      rewrite read_file_delete by (by apply read_file_Some_dir in Hn).
      rewrite decide_True by done. by intros [? ?].
    + rewrite Hn. by intros [? ?].
Qed.
End listing_exact.

(** * Further properties of the capture engine *)

Section engine_more.
Context (drv : Driver).
Implicit Types s : St.

(** X13: [cleanup] never raises.  Under its re-entrancy guard it does
    nothing at all; otherwise it ends with no stream and the guard lowered,
    it keeps the frames, the recording flag, the settings and the files,
    and the device handle is either released or the one it was. *)
Theorem cleanup_releases s :
  if _is_cleaning_up (self s) then AudioRecorder.cleanup drv s = (Ret tt, s)
  else exists s',
    AudioRecorder.cleanup drv s = (Ret tt, s')
    /\ stream (self s') = None
    /\ _is_cleaning_up (self s') = false
    /\ frames (self s') = frames (self s)
    /\ recording (self s') = recording (self s)
    /\ (pyaudio (self s') = None \/ pyaudio (self s') = pyaudio (self s))
    /\ cfg (world s') = cfg (world s)
    /\ fs (world s') = fs (world s).
Proof.
  destruct s as [[p st f r t c] w]. cbn [self _is_cleaning_up].
  unfold AudioRecorder.cleanup, AudioRecorder._cleanup_stream.
  destruct c; [done|]. exec; eauto 12.
Qed.

(** X14: once [cleanup] has released the device handle, a further
    [cleanup] makes no external call and changes nothing. *)
Theorem cleanup_twice s :
  pyaudio (self (AudioRecorder.cleanup drv s).2) = None ->
  AudioRecorder.cleanup drv (AudioRecorder.cleanup drv s).2
    = (Ret tt, (AudioRecorder.cleanup drv s).2).
Proof.
  destruct s as [[p st f r t c] w].
  unfold AudioRecorder.cleanup, AudioRecorder._cleanup_stream.
  destruct c; exec; intros; try done; try discriminate.
Qed.

(** X15: [_initialize_pyaudio] either returns with a device handle and no
    stream, or raises with no device handle; either way the frames and the
    recording flag are as before. *)
Theorem initialize_pyaudio_outcome s :
  let out := AudioRecorder._initialize_pyaudio drv s in
  match out.1 with
  | Ret _ => is_Some (pyaudio (self out.2)) /\ stream (self out.2) = None
  | Raise _ => pyaudio (self out.2) = None
  end
  /\ frames (self out.2) = frames (self s)
  /\ recording (self out.2) = recording (self s).
Proof.
  destruct s as [[p st f r t c] w].
  unfold AudioRecorder._initialize_pyaudio. exec; eauto.
Qed.

(** X16: a [start_recording] that raises leaves the engine idle: not
    recording, without a stream, the clean-up guard lowered. *)
Theorem start_recording_failure_leaves_idle s e s' :
  recording (self s) = false ->
  _is_cleaning_up (self s) = false ->
  AudioRecorder.start_recording drv s = (Raise e, s') ->
  recording (self s') = false
  /\ stream (self s') = None
  /\ _is_cleaning_up (self s') = false.
Proof.
  destruct s as [[p st f r t c] w]. cbn. intros -> ->. revert s'.
  unfold AudioRecorder.start_recording, AudioRecorder._initialize_pyaudio,
    AudioRecorder.cleanup, AudioRecorder._cleanup_stream.
  exec; intros s' [= <- <-]; done.
Qed.


(** X18: in a session, a read that fails makes [record_chunk] return
    [False] without raising; the stream is given up, the frames captured so
    far are kept, and the recording flag is still set. *)
Theorem record_chunk_read_failure s :
  recording (self s) = true ->
  is_Some (stream (self s)) ->
  read_reply drv (log (world s)) (CHUNK_SIZE (cfg (world s))) = None ->
  exists s',
    AudioRecorder.record_chunk drv s = (Ret false, s')
    /\ frames (self s') = frames (self s)
    /\ recording (self s') = true
    /\ (_is_cleaning_up (self s) = false -> stream (self s') = None).
Proof.
  destruct s as [[p st f r t c] w]. cbn [self world recording stream].
  intros -> [st' ->].
  unfold AudioRecorder.record_chunk, AudioRecorder.cleanup,
    AudioRecorder._cleanup_stream.
  exec; intros [=]; (eexists; split; [reflexivity|]); cbn; repeat split; done.
Qed.

(** X19: when the device handle is gone, [stop_recording] in a session
    returns the empty byte string and duration zero: the frames captured so
    far are not returned, although they stay in the buffer. *)
Theorem stop_recording_without_device s :
  recording (self s) = true ->
  pyaudio (self s) = None ->
  exists s',
    AudioRecorder.stop_recording drv s = (Ret ([], 0%Q), s')
    /\ recording (self s') = false
    /\ frames (self s') = frames (self s).
Proof.
  destruct s as [[p st f r t c] w]. cbn [self recording pyaudio].
  intros -> ->.
  unfold AudioRecorder.stop_recording, AudioRecorder._cleanup_stream.
  exec; eauto.
Qed.


(** X22: [set_input_device] never raises and never touches the engine or
    the files.  It returns [True] only for a device that reports at least
    one input channel, and then that device is the selected one; when it
    returns [False] the settings are as before. *)
Theorem set_input_device_selects_or_keeps i s :
  exists b s',
    AudioRecorder.set_input_device drv i s = (Ret b, s')
    /\ self s' = self s
    /\ fs (world s') = fs (world s)
    /\ if b
       then DEFAULT_INPUT_DEVICE (cfg (world s')) = Some i
            /\ exists k, max_input_channels drv (log (world s)) i = Some k
                         /\ 0 < k
       else cfg (world s') = cfg (world s).
Proof.
  destruct s as [[p st f r t c] w].
  unfold AudioRecorder.set_input_device,
    AudioRecorder.get_device_info_by_index.
  exec; eexists _, _; (split; [reflexivity|]); cbn; eauto 10.
Qed.
End engine_more.

Lemma pack_L_Some v b : wave.pack_L v = Some b -> b = wave.le 4 v.
Proof. unfold wave.pack_L. case_decide; congruence. Qed.

Lemma pack_H_Some v b : wave.pack_H v = Some b -> b = wave.le 2 v.
Proof. unfold wave.pack_H. case_decide; congruence. Qed.

(** X21: the WAV envelope is a 44-byte header followed by the samples
    unchanged; the header starts with [RIFF] and its last four bytes are
    the byte count of the samples, least significant byte first. *)
Theorem wave_write_layout nchannels sampwidth framerate data out :
  wave.write nchannels sampwidth framerate data = Some out ->
  length out = (44 + length data)%nat
  /\ drop 44 out = data
  /\ take 4 out = list_byte_of_string "RIFF"
  /\ take 4 (drop 40 out) = wave.le 4 (Z.of_nat (length data)).
Proof.
  unfold wave.write.
  destruct (decide (nchannels < 1)); [done|].
  destruct (decide (sampwidth < 1 \/ 4 < sampwidth)); [done|].
  destruct (decide (framerate <= 0)); [done|].
  intros (h & Hh & [= <-])%bind_Some.
  unfold wave.header in Hh.
  repeat (apply bind_Some in Hh as (? & Hp & Hh);
          first [apply pack_L_Some in Hp | apply pack_H_Some in Hp]; subst).
  injection Hh as <-. repeat split.
Qed.


(** ** Instances of the further properties *)

Lemma two_slides_names name :
  name ∈ dom (os.dir_state Demo.two_slides "recordings") ->
  name = "slide_001.mp3" \/ name = "slide_003.mp3".
Proof.
  assert (os.dir_state Demo.two_slides "recordings"
          = <["slide_001.mp3" := Demo.clip]>
              (<["slide_003.mp3" := Demo.retake]> ∅)) as ->
    by (vm_compute; reflexivity).
  rewrite !dom_insert_L, dom_empty_L.
  intros [->%elem_of_singleton|[->%elem_of_singleton|H]%elem_of_union]%elem_of_union;
    [by left|by right|by apply not_elem_of_empty in H].
Qed.

Lemma two_slides_only_recordings : only_recordings Demo.two_slides.
Proof.
  intros name [-> | ->]%two_slides_names; [by exists 1|by exists 3].
Qed.

Lemma get_recording_list_exact_without_backups_witness :
  exists l,
    FileManager.get_recording_list Demo.two_slides = (Ret l, Demo.two_slides)
    /\ Sorted Z.lt l
    /\ forall n, n ∈ l <->
         is_Some (os.read_file Demo.two_slides
                    (recording_path Demo.two_slides n)).
Proof.
  apply get_recording_list_exact_without_backups.
  apply two_slides_only_recordings.
Defined.

Lemma get_next_slide_number_without_backups_witness :
  exists r,
    FileManager.get_next_slide_number Demo.two_slides
      = (Ret r, Demo.two_slides)
    /\ is_Some (os.read_file Demo.two_slides
                  (recording_path Demo.two_slides (r - 1))).
Proof.
  destruct (get_next_slide_number_without_backups Demo.two_slides
              two_slides_only_recordings) as (r & Hrun & _ & Hmax).
  exists r. split; [exact Hrun|]. apply Hmax.
  exists 1. vm_compute. by eexists.
Defined.

Lemma record_next_slide_appends_witness :
  exists l,
    FileManager.get_recording_list Demo.two_slides = (Ret l, Demo.two_slides)
    /\ (FileManager.get_recording_list
         (FileManager.save_recording Demo.studio Demo.lame Demo.clip 4
            Demo.two_slides).2).1 = Ret (l ++ [4]).
Proof.
  destruct (record_next_slide_appends Demo.studio Demo.lame Demo.clip
              Demo.two_slides 4 ("recordings", "slide_004.mp3")
              (FileManager.save_recording Demo.studio Demo.lame Demo.clip 4
                 Demo.two_slides).2) as (l & Hl & Hl').
  - apply two_slides_only_recordings.
  - vm_compute. reflexivity.
  - vm_compute. reflexivity.
  - exists l. split; [exact Hl|]. by rewrite Hl'.
Defined.

Lemma rerecord_keeps_previous_take_witness :
  let w' := (FileManager.save_recording Demo.studio Demo.lame Demo.clip 3
               (FileManager.backup_recording 3 Demo.two_slides).2).2 in
  os.read_file w' ("recordings", "slide_003_backup.mp3") = Some Demo.retake
  /\ os.read_file w' ("recordings", "slide_003.mp3")
     = Some (Byte.x4d :: Demo.clip).
Proof.
  intros w'.
  apply (rerecord_keeps_previous_take Demo.studio Demo.lame Demo.clip 3
           Demo.two_slides Demo.retake ("recordings", "slide_003.mp3") w').
  - vm_compute. reflexivity.
  - vm_compute. reflexivity.
Defined.

Lemma cleanup_twice_witness :
  AudioRecorder.cleanup Demo.studio
    (AudioRecorder.cleanup Demo.studio Demo.recorded).2
    = (Ret tt, (AudioRecorder.cleanup Demo.studio Demo.recorded).2).
Proof. apply cleanup_twice. vm_compute. reflexivity. Defined.

Lemma start_recording_failure_leaves_idle_witness :
  let out := AudioRecorder.start_recording Demo.no_microphone Demo.idle in
  out.1 = Raise OSError
  /\ recording (self out.2) = false
  /\ stream (self out.2) = None.
Proof.
  intros out.
  assert (out = (Raise OSError, out.2)) as Hout by (vm_compute; reflexivity).
  destruct (start_recording_failure_leaves_idle Demo.no_microphone Demo.idle
              OSError out.2 eq_refl eq_refl Hout) as (Hrec & Hstream & _).
  split; [by rewrite Hout|]. by split.
Defined.


Lemma record_chunk_read_failure_witness :
  exists s',
    AudioRecorder.record_chunk Demo.unplugged Demo.started = (Ret false, s')
    /\ recording (self s') = true
    /\ stream (self s') = None.
Proof.
  destruct (record_chunk_read_failure Demo.unplugged Demo.started)
    as (s' & Hrun & _ & Hrec & Hstream).
  - reflexivity.
  - by eexists.
  - reflexivity.
  - exists s'. split; [exact Hrun|]. split; [exact Hrec|].
    apply Hstream. reflexivity.
Defined.

Lemma stop_recording_without_device_witness :
  let s := (AudioRecorder.record_chunk Demo.unplugged Demo.started).2 in
  exists s',
    AudioRecorder.stop_recording Demo.unplugged s = (Ret ([], 0%Q), s')
    /\ recording (self s') = false.
Proof.
  intros s.
  destruct (stop_recording_without_device Demo.unplugged s)
    as (s' & Hrun & Hrec & _).
  - reflexivity.
  - reflexivity.
  - by exists s'.
Defined.


Lemma wave_write_layout_witness :
  exists out,
    wave.write 1 2 44100 [Byte.x01; Byte.x02] = Some out
    /\ length out = 46%nat
    /\ drop 44 out = [Byte.x01; Byte.x02].
Proof.
  eexists. split; [reflexivity|].
  destruct (wave_write_layout 1 2 44100 [Byte.x01; Byte.x02] _ eq_refl)
    as (Hlen & Hdrop & _).
  split; [exact Hlen|exact Hdrop].
Defined.

Section stray_files.
Context (codec : Codec).
Implicit Types (w : World) (s : St).

(** X24: [convert_to_mp3] never raises and changes nothing; when the
    encoder succeeds its result is the encoder's output at the configured
    bitrate. *)
Theorem convert_to_mp3_returns wav_data s :
  exists out,
    AudioRecorder.convert_to_mp3 codec wav_data s = (Ret out, s)
    /\ match mp3_of codec (BITRATE (cfg (world s))) wav_data with
       | Some mp3_data => out = mp3_data
       | None => out = wav_data
       end.
Proof.
  rewrite convert_to_mp3_run. eexists. split; [reflexivity|].
  by destruct (mp3_of _ _ _).
Qed.


End stray_files.

